(** * EducatorAI: request lifecycle of the generation service

    A shallow embedding of [models/ai_service.py], [api/models.py],
    [api/routes.py], [config.py] and the start-up path of [main.py],
    followed by the properties of the service contract.

    Conventions of the embedding.
    - A Python [str] is the list of its code points; [len], [strip] and
      concatenation are the list operations.
    - A Python [float] is a binary64 value ([PrimFloat.float]); a Python
      [int] is a [Z].
    - A call that may raise returns a [result]; a method of [AIService]
      is a function from the object's state to the new state and a
      [result], so that the writes made before a [raise] are kept.
    - The third-party calls (model loading, the text-generation pipeline,
      the clock) are inputs of the functions that make them. *)

From Stdlib Require Import ZArith NArith List Bool String Ascii Floats Lia.
From Stdlib Require Import DecimalString.
Import ListNotations.

Set Implicit Arguments.
Set Warnings "-inexact-float".

(** ** Python strings *)

Definition pystr := list N.

Definition lit (s : string) : pystr :=
  map N_of_ascii (list_ascii_of_string s).
Arguments lit s%_string : simpl never.

Definition nl : pystr := [10%N].

Definition pystr_eqb (a b : pystr) : bool :=
  if list_eq_dec N.eq_dec a b then true else false.

(** [str.isspace] on one character, as CPython's [Py_UNICODE_ISSPACE]. *)
Definition is_space (c : N) : bool :=
  ((9 <=? c) && (c <=? 13) || (28 <=? c) && (c <=? 31) || (c =? 32)
   || (c =? 133) || (c =? 160) || (c =? 5760)
   || (8192 <=? c) && (c <=? 8202) || (c =? 8232) || (c =? 8233)
   || (c =? 8239) || (c =? 8287) || (c =? 12288))%N.

Fixpoint lstrip (s : pystr) : pystr :=
  match s with
  | [] => []
  | c :: t => if is_space c then lstrip t else s
  end.

Definition rstrip (s : pystr) : pystr := rev (lstrip (rev s)).

(** [str.strip()] with no argument. *)
Definition strip (s : pystr) : pystr := rstrip (lstrip s).

(** Truth value of a [str]: non-empty. *)
Definition truthy_str (s : pystr) : bool :=
  match s with [] => false | _ => true end.

Definition len (s : pystr) : Z := Z.of_nat (List.length s).

(** ** Exceptions and results *)

Inductive exn : Type :=
| RuntimeError (msg : pystr)
| ValueError (msg : pystr)
| AttributeError (msg : pystr)
| IndexError (msg : pystr)
| HTTPException (status_code : Z) (detail : pystr)
| OtherException (cls msg : pystr)
    (* any other subclass of Exception raised by third-party code *)
| OtherBaseException (cls msg : pystr).
    (* KeyboardInterrupt, SystemExit, asyncio.CancelledError *)

Definition isinstance_HTTPException (e : exn) : bool :=
  match e with HTTPException _ _ => true | _ => false end.

Definition isinstance_Exception (e : exn) : bool :=
  match e with OtherBaseException _ _ => false | _ => true end.

(** [str(e)] *)
Definition str_exn (e : exn) : pystr :=
  match e with
  | RuntimeError m | ValueError m | AttributeError m | IndexError m => m
  | HTTPException c d =>
      lit (NilZero.string_of_int (Z.to_int c)) ++ lit ": " ++ d
  | OtherException _ m | OtherBaseException _ m => m
  end.

Inductive result (A : Type) : Type :=
| Return (a : A)
| Raise (e : exn).
Arguments Return {A} a.
Arguments Raise {A} e.

Definition is_raise {A} (r : result A) : bool :=
  match r with Raise _ => true | Return _ => false end.

(** ** Floats and defaulting *)

(** Truth value of a [float]: [x != 0.0] (so [-0.0] is false, NaN true). *)
Definition truthy_float (x : float) : bool := negb (PrimFloat.eqb x 0%float).

(** Truth value of an [int]. *)
Definition truthy_int (x : Z) : bool := negb (x =? 0)%Z.

(** [v or d] for an [Optional[int]] [v]. *)
Definition or_int (v : option Z) (d : Z) : Z :=
  match v with
  | Some x => if truthy_int x then x else d
  | None => d
  end.

(** [v or d] for an [Optional[float]] [v]. *)
Definition or_float (v : option float) (d : float) : float :=
  match v with
  | Some x => if truthy_float x then x else d
  | None => d
  end.

(** ** config.py *)

Module Config.

Record Settings : Type := {
  model_name : pystr;
  max_length : Z;
  temperature : float;
  top_p : float
}.

Definition settings : Settings := {|
  model_name := lit "ibm-granite/granite-3.3-2b-instruct";
  max_length := 512;
  temperature := 0.7%float;
  top_p := 0.9%float
|}.

End Config.

(** ** api/models.py *)

Inductive ContentType : Type :=
| EXPLANATION | SUMMARY | QUIZ | LESSON | EXAMPLE | DEFINITION.

(** The [value] of a member; [ContentType] is a [str] enumeration, so a
    member compares and hashes as this string. *)
Definition ContentType_value (c : ContentType) : pystr :=
  match c with
  | EXPLANATION => lit "explanation"
  | SUMMARY => lit "summary"
  | QUIZ => lit "quiz"
  | LESSON => lit "lesson"
  | EXAMPLE => lit "example"
  | DEFINITION => lit "definition"
  end.

Definition all_ContentType : list ContentType :=
  [EXPLANATION; SUMMARY; QUIZ; LESSON; EXAMPLE; DEFINITION].

(** [ContentType(s)]: the member whose value is [s], if any. *)
Definition ContentType_of_value (s : pystr) : option ContentType :=
  find (fun c => pystr_eqb (ContentType_value c) s) all_ContentType.

Record GenerateRequest : Type := {
  req_prompt : pystr;
  req_content_type : option ContentType;
  req_context : option pystr;
  req_max_length : option Z;
  req_temperature : option float;
  req_top_p : option float
}.

(** A field of the request body: absent, JSON [null], or a value. *)
Inductive field (A : Type) : Type :=
| Absent
| Null
| Given (a : A).
Arguments Absent {A}.
Arguments Null {A}.
Arguments Given {A} a.

(** The body of [POST /generate] before validation. *)
Record RawRequest : Type := {
  raw_prompt : field pystr;
  raw_content_type : field pystr;
  raw_context : field pystr;
  raw_max_length : field Z;
  raw_temperature : field float;
  raw_top_p : field float
}.

(** [prompt]: [min_length=1], [max_length=1000], then the validator. *)
Definition validate_prompt (v : pystr) : result pystr :=
  if negb (truthy_str (strip v)) then
    Raise (ValueError (lit "Prompt cannot be empty"))
  else Return (strip v).

Definition check_prompt (f : field pystr) : result pystr :=
  match f with
  | Absent => Raise (ValueError (lit "Field required"))
  | Null => Raise (ValueError (lit "Input should be a valid string"))
  | Given v =>
      if (len v <? 1)%Z then
        Raise (ValueError (lit "String should have at least 1 character"))
      else if (1000 <? len v)%Z then
        Raise (ValueError (lit "String should have at most 1000 characters"))
      else validate_prompt v
  end.

Definition check_content_type (f : field pystr)
  : result (option ContentType) :=
  match f with
  | Absent => Return (Some EXPLANATION)
  | Null => Return None
  | Given s =>
      match ContentType_of_value s with
      | Some c => Return (Some c)
      | None => Raise (ValueError (lit "Input should be a valid content type"))
      end
  end.

Definition validate_context (v : option pystr) : option pystr :=
  match v with
  | Some s => Some (strip s)
  | None => None
  end.

Definition check_context (f : field pystr) : result (option pystr) :=
  match f with
  | Absent => Return None
  | Null => Return (validate_context None)
  | Given s =>
      if (2000 <? len s)%Z then
        Raise (ValueError (lit "String should have at most 2000 characters"))
      else Return (validate_context (Some s))
  end.

(** [Optional[int]] with [ge] and [le]. *)
Definition check_int (lo hi : Z) (f : field Z) : result (option Z) :=
  match f with
  | Absent | Null => Return None
  | Given x =>
      if ((lo <=? x) && (x <=? hi))%Z then Return (Some x)
      else Raise (ValueError (lit "Input out of range"))
  end.

(** [Optional[float]] with [ge] and [le]. *)
Definition check_float (lo hi : float) (f : field float)
  : result (option float) :=
  match f with
  | Absent | Null => Return None
  | Given x =>
      if (PrimFloat.leb lo x && PrimFloat.leb x hi)%bool then Return (Some x)
      else Raise (ValueError (lit "Input out of range"))
  end.

Definition bind_result {A B} (r : result A) (k : A -> result B) : result B :=
  match r with
  | Return a => k a
  | Raise e => Raise e
  end.

(** Construction of a [GenerateRequest] from a request body. *)
Definition validate_request (raw : RawRequest) : result GenerateRequest :=
  bind_result (check_prompt (raw_prompt raw)) (fun p =>
  bind_result (check_content_type (raw_content_type raw)) (fun ct =>
  bind_result (check_context (raw_context raw)) (fun cx =>
  bind_result (check_int 50 1000 (raw_max_length raw)) (fun ml =>
  bind_result (check_float 0.1 2.0 (raw_temperature raw)) (fun te =>
  bind_result (check_float 0.1 1.0 (raw_top_p raw)) (fun tp =>
  Return {| req_prompt := p; req_content_type := ct; req_context := cx;
            req_max_length := ml; req_temperature := te;
            req_top_p := tp |})))))).

(** ** models/ai_service.py *)

(** The arguments of one call of [self.pipeline]. *)
Record PipelineCall : Type := {
  call_prompt : pystr;
  call_max_length : Z;
  call_temperature : float;
  call_top_p : float;
  call_do_sample : bool;
  call_pad_token_id : option Z;
  call_num_return_sequences : Z;
  call_return_full_text : bool
}.

Record Tokenizer : Type := { eos_token_id : option Z }.

Record Model : Type := { model_handle : nat }.

(** A loaded text-generation pipeline: what a call returns (the
    ['generated_text'] of each returned sequence) or raises, given the
    sampling randomness of that call. *)
Record Pipeline : Type := {
  run_pipeline : nat -> PipelineCall -> result (list pystr)
}.

(** An instance attribute: bound to [None] or to an object, or removed
    by [del], after which reading it raises [AttributeError]. *)
Inductive attr (A : Type) : Type :=
| Deleted
| Bound (v : option A).
Arguments Deleted {A}.
Arguments Bound {A} v.

Record AIService : Type := {
  model : attr Model;
  tokenizer : attr Tokenizer;
  pipeline : attr Pipeline;
  device : option pystr;
  executor_shutdown : bool;   (* self.executor has been shut down *)
  _ready : bool;
  calls : list PipelineCall   (* ghost: the calls made to self.pipeline *)
}.

(** [AIService.__init__] *)
Definition new_AIService : AIService := {|
  model := Bound None;
  tokenizer := Bound None;
  pipeline := Bound None;
  device := None;
  executor_shutdown := false;
  _ready := false;
  calls := []
|}.

Definition set_model (v : attr Model) (s : AIService) : AIService :=
  {| model := v; tokenizer := tokenizer s; pipeline := pipeline s;
     device := device s; executor_shutdown := executor_shutdown s;
     _ready := _ready s; calls := calls s |}.

Definition set_tokenizer (v : attr Tokenizer) (s : AIService) : AIService :=
  {| model := model s; tokenizer := v; pipeline := pipeline s;
     device := device s; executor_shutdown := executor_shutdown s;
     _ready := _ready s; calls := calls s |}.

Definition set_pipeline (v : attr Pipeline) (s : AIService) : AIService :=
  {| model := model s; tokenizer := tokenizer s; pipeline := v;
     device := device s; executor_shutdown := executor_shutdown s;
     _ready := _ready s; calls := calls s |}.

Definition set_device (v : option pystr) (s : AIService) : AIService :=
  {| model := model s; tokenizer := tokenizer s; pipeline := pipeline s;
     device := v; executor_shutdown := executor_shutdown s;
     _ready := _ready s; calls := calls s |}.

Definition set_executor_shutdown (v : bool) (s : AIService) : AIService :=
  {| model := model s; tokenizer := tokenizer s; pipeline := pipeline s;
     device := device s; executor_shutdown := v;
     _ready := _ready s; calls := calls s |}.

Definition set_ready (v : bool) (s : AIService) : AIService :=
  {| model := model s; tokenizer := tokenizer s; pipeline := pipeline s;
     device := device s; executor_shutdown := executor_shutdown s;
     _ready := v; calls := calls s |}.

Definition log_call (c : PipelineCall) (s : AIService) : AIService :=
  {| model := model s; tokenizer := tokenizer s; pipeline := pipeline s;
     device := device s; executor_shutdown := executor_shutdown s;
     _ready := _ready s; calls := calls s ++ [c] |}.

(** *** Methods as state transformers that may raise *)

Definition M (A : Type) : Type := AIService -> AIService * result A.

Definition ret {A} (a : A) : M A := fun s => (s, Return a).

Definition raise {A} (e : exn) : M A := fun s => (s, Raise e).

Definition bind {A B} (m : M A) (k : A -> M B) : M B :=
  fun s =>
    match m s with
    | (s', Return a) => k a s'
    | (s', Raise e) => (s', Raise e)
    end.

Definition lift {A} (r : result A) : M A := fun s => (s, r).

Definition modify (f : AIService -> AIService) : M unit :=
  fun s => (f s, Return tt).

Definition read {A} (f : AIService -> A) : M A := fun s => (s, Return (f s)).

Declare Scope py_scope.
Delimit Scope py_scope with py.
Notation "x <- m ;; k" := (bind m (fun x => k))
  (at level 61, m at next level, right associativity) : py_scope.
Notation "m ;; k" := (bind m (fun _ => k))
  (at level 61, right associativity) : py_scope.
Local Open Scope py_scope.

(** [try: m  except Exception as e: h e] *)
Definition try_except {A} (m : M A) (h : exn -> M A) : M A :=
  fun s =>
    match m s with
    | (s', Raise e) => if isinstance_Exception e then h e s' else (s', Raise e)
    | r => r
    end.

(** Reading [self.<name>]. *)
Definition getattr {A} (name : string) (f : AIService -> attr A)
  : M (option A) :=
  fun s =>
    match f s with
    | Bound v => (s, Return v)
    | Deleted =>
        (s, Raise (AttributeError
           (lit "'AIService' object has no attribute '" ++ lit name
            ++ lit "'")))
    end.

(** Truth value of an attribute's content: [None] is false, a loaded
    model, tokenizer or pipeline is true. *)
Definition truthy_obj {A} (v : option A) : bool :=
  match v with Some _ => true | None => false end.

Definition is_not_None {A} (v : option A) : bool :=
  match v with Some _ => true | None => false end.

(** [loop.run_in_executor(self.executor, fn)], awaited: submitting to a
    pool that was shut down raises; otherwise the exception or value of
    [fn] is the one of the awaiting caller. *)
Definition run_in_executor {A} (fn : M A) : M A :=
  fun s =>
    if executor_shutdown s then
      (s, Raise (RuntimeError
                   (lit "cannot schedule new futures after shutdown")))
    else fn s.

(** What the environment answers during one [initialize()]. *)
Record LoadEnv : Type := {
  cuda_is_available : bool;
  tokenizer_from_pretrained : result Tokenizer;
  model_from_pretrained : result Model;
  new_pipeline : Model -> Tokenizer -> result Pipeline
}.

Definition _load_model (env : LoadEnv) : M unit :=
  try_except
    (tok <- lift (tokenizer_from_pretrained env) ;;
     modify (set_tokenizer (Bound (Some tok))) ;;
     m <- lift (model_from_pretrained env) ;;
     modify (set_model (Bound (Some m))) ;;
     p <- lift (new_pipeline env m tok) ;;
     modify (set_pipeline (Bound (Some p))))
    (fun e => raise e).

(** ["cuda" if torch.cuda.is_available() else "cpu"] *)
Definition chosen_device (env : LoadEnv) : option pystr :=
  Some (if cuda_is_available env then lit "cuda" else lit "cpu").

Definition initialize (env : LoadEnv) : M unit :=
  try_except
    (modify (set_device (chosen_device env)) ;;
     run_in_executor (_load_model env) ;;
     modify (set_ready true))
    (fun e => raise e).

Definition is_ready : M bool :=
  r <- read _ready ;;
  if r then
    p <- getattr "pipeline" pipeline ;;
    ret (is_not_None p)
  else ret false.

Definition system_prompt : pystr :=
  lit "You are an expert educator and content creator. Your task is to generate high-quality educational content that is:"
  ++ nl ++ lit "- Clear and easy to understand"
  ++ nl ++ lit "- Accurate and factual"
  ++ nl ++ lit "- Engaging and informative"
  ++ nl ++ lit "- Appropriate for the target audience"
  ++ nl ++ lit "- Well-structured with examples when helpful"
  ++ nl ++ nl
  ++ lit "Please provide educational content based on the following request:".

Definition _prepare_prompt (prompt : pystr) (context : option pystr)
  : pystr :=
  match context with
  | Some c =>
      if truthy_str c then
        system_prompt ++ nl ++ nl ++ lit "Context: " ++ c ++ nl ++ nl
        ++ lit "Request: " ++ prompt ++ nl ++ nl ++ lit "Response:"
      else
        system_prompt ++ nl ++ nl ++ lit "Request: " ++ prompt
        ++ nl ++ nl ++ lit "Response:"
  | None =>
      system_prompt ++ nl ++ nl ++ lit "Request: " ++ prompt
      ++ nl ++ nl ++ lit "Response:"
  end.

(** The arguments that [_generate_text_sync] passes to [self.pipeline]. *)
Definition pipeline_args (prompt : pystr) (max_length : Z)
  (temperature top_p : float) (tok : Tokenizer) : PipelineCall :=
  {| call_prompt := prompt;
     call_max_length := max_length;
     call_temperature := temperature;
     call_top_p := top_p;
     call_do_sample := true;
     call_pad_token_id := eos_token_id tok;
     call_num_return_sequences := 1;
     call_return_full_text := false |}.

(** [self.pipeline(prompt, ...)]: the callee and the arguments are
    evaluated first, then the call is made; it is recorded in [calls]. *)
Definition call_pipeline (seed : nat) (prompt : pystr) (max_length : Z)
  (temperature top_p : float) : M (list pystr) :=
  p <- getattr "pipeline" pipeline ;;
  t <- getattr "tokenizer" tokenizer ;;
  match t with
  | None =>
      raise (AttributeError
               (lit "'NoneType' object has no attribute 'eos_token_id'"))
  | Some tok =>
      let c := pipeline_args prompt max_length temperature top_p tok in
      match p with
      | None =>
          raise (OtherException (lit "TypeError")
                   (lit "'NoneType' object is not callable"))
      | Some pl => modify (log_call c) ;; lift (run_pipeline pl seed c)
      end
  end.

(** The body runs under [with self._lock]; a single caller finds the lock
    free and leaves it free on return and on raise.  The interleavings of
    several callers are the subject of [Module Workers]. *)
Definition _generate_text_sync (seed : nat) (prompt : pystr)
  (max_length : Z) (temperature top_p : float) : M pystr :=
  try_except
    (outputs <- call_pipeline seed prompt max_length temperature top_p ;;
     match outputs with
     | generated_text :: _ => ret (strip generated_text)
     | [] => raise (IndexError (lit "list index out of range"))
     end)
    (fun e => raise e).

Record Parameters : Type := {
  p_max_length : Z;
  p_temperature : float;
  p_top_p : float
}.

(** The dictionary returned by [generate_text]. *)
Record GenerationResult : Type := {
  res_generated_text : pystr;
  res_prompt : pystr;
  res_context : option pystr;
  res_parameters : Parameters
}.

Definition generate_text (seed : nat) (prompt : pystr)
  (max_length : option Z) (temperature top_p : option float)
  (context : option pystr) : M GenerationResult :=
  ready <- is_ready ;;
  if negb ready then raise (RuntimeError (lit "AI service is not ready"))
  else
    try_except
      (let full_prompt := _prepare_prompt prompt context in
       let max_length :=
         or_int max_length (Config.max_length Config.settings) in
       let temperature :=
         or_float temperature (Config.temperature Config.settings) in
       let top_p := or_float top_p (Config.top_p Config.settings) in
       result <- run_in_executor
                   (_generate_text_sync seed full_prompt max_length
                      temperature top_p) ;;
       ret {| res_generated_text := result;
              res_prompt := prompt;
              res_context := context;
              res_parameters := {| p_max_length := max_length;
                                   p_temperature := temperature;
                                   p_top_p := top_p |} |})
      (fun e => raise e).

(** [del self.<name>] guarded by [if self.<name>:]. *)
Definition del_if_truthy {A} (name : string) (f : AIService -> attr A)
  (set : attr A -> AIService -> AIService) : M unit :=
  v <- getattr name f ;;
  if truthy_obj v then modify (set Deleted) else ret tt.

(** [cuda] is the answer of [torch.cuda.is_available()]; emptying the
    CUDA cache touches nothing of the service. *)
Definition cleanup (cuda : bool) : M unit :=
  modify (set_executor_shutdown true) ;;
  del_if_truthy "model" model set_model ;;
  del_if_truthy "tokenizer" tokenizer set_tokenizer ;;
  del_if_truthy "pipeline" pipeline set_pipeline ;;
  (if cuda then ret tt else ret tt) ;;
  modify (set_ready false).

(** ** api/routes.py *)

(** A value passed as [content_type]: the annotation is not enforced at
    the call, so any object can arrive. *)
Inductive pyobj : Type :=
| PyNone
| PyMember (c : ContentType)
| PyStr (s : pystr)
| PyInt (z : Z).

(** [k == member] (and equal hashes): a member of the [str] enumeration
    equals itself and the plain string of its value. *)
Definition key_eqb (k : pyobj) (member : ContentType) : bool :=
  match k with
  | PyMember c => pystr_eqb (ContentType_value c) (ContentType_value member)
  | PyStr s => pystr_eqb s (ContentType_value member)
  | PyNone | PyInt _ => false
  end.

Definition dict := list (ContentType * pystr).

(** [d.get(k, default)] *)
Definition dict_get (d : dict) (k : pyobj) (default : pystr) : pystr :=
  match find (fun kv => key_eqb k (fst kv)) d with
  | Some kv => snd kv
  | None => default
  end.

(** [d[member]] for a key that the literal [d] holds. *)
Definition dict_item (d : dict) (member : ContentType) : pystr :=
  dict_get d (PyMember member) [].

Definition type_instructions : dict :=
  [ (EXPLANATION, lit "Provide a clear, detailed explanation of the following topic. Include examples and break down complex concepts into understandable parts:");
    (SUMMARY, lit "Create a concise summary of the following topic, highlighting the key points and main ideas:");
    (QUIZ, lit "Generate quiz questions and answers about the following topic. Include multiple choice, true/false, and short answer questions:");
    (LESSON, lit "Create a structured lesson plan for teaching the following topic. Include objectives, activities, and assessment methods:");
    (EXAMPLE, lit "Provide practical examples and real-world applications of the following concept:");
    (DEFINITION, lit "Provide a clear definition and explanation of the following term or concept, including its significance and context:") ].

Definition _enhance_prompt_by_type (prompt : pystr) (content_type : pyobj)
  : pystr :=
  let instruction :=
    dict_get type_instructions content_type
      (dict_item type_instructions EXPLANATION) in
  instruction ++ nl ++ nl ++ prompt.

(** The object held by [request.content_type]. *)
Definition pyobj_of_content_type (c : option ContentType) : pyobj :=
  match c with
  | Some m => PyMember m
  | None => PyNone
  end.

(** A response object.  Every field is declared with
    [Field(description=...)] and no default, so every field is required
    by the constructor, the [Optional] ones too (they accept [None] when
    it is passed). *)
Record GenerateResponse : Type := {
  success : bool;
  generated_text : option pystr;
  prompt : option pystr;
  context : option pystr;
  content_type : option ContentType;
  parameters : option Parameters;
  error : option pystr;
  processing_time : option float
}.

(** A keyword argument of a constructor call: left out, or passed. *)
Inductive kwarg (A : Type) : Type :=
| Omitted
| Passed (a : A).
Arguments Omitted {A}.
Arguments Passed {A} a.

Definition missing_of {A} (name : string) (k : kwarg A) : list string :=
  match k with
  | Omitted => [name]
  | Passed _ => []
  end.

(** The error that the constructor of a model raises for required fields
    that were left out; it is a subclass of [ValueError].  Of the text of
    the library only the headline and, per field, the name and "Field
    required" are kept. *)
Definition missing_fields_error (model_name : string) (missing : list string)
  : exn :=
  OtherException (lit "ValidationError")
    (lit (NilZero.string_of_uint (Nat.to_uint (List.length missing)))
     ++ lit (match missing with
             | [_] => " validation error for "
             | _ => " validation errors for "
             end)
     ++ lit model_name
     ++ List.concat (map (fun name => nl ++ lit name ++ nl
                                      ++ lit "  Field required") missing)).

(** [GenerateResponse(...)]: all fields left out are reported together,
    in the order of their declaration. *)
Definition new_GenerateResponse (k_success : kwarg bool)
  (k_generated_text k_prompt k_context : kwarg (option pystr))
  (k_content_type : kwarg (option ContentType))
  (k_parameters : kwarg (option Parameters))
  (k_error : kwarg (option pystr))
  (k_processing_time : kwarg (option float)) : result GenerateResponse :=
  match k_success, k_generated_text, k_prompt, k_context, k_content_type,
        k_parameters, k_error, k_processing_time with
  | Passed s, Passed g, Passed p, Passed c, Passed t, Passed ps, Passed e,
    Passed pt =>
      Return {| success := s; generated_text := g; prompt := p;
                context := c; content_type := t; parameters := ps;
                error := e; processing_time := pt |}
  | _, _, _, _, _, _, _, _ =>
      Raise (missing_fields_error "GenerateResponse"
               (missing_of "success" k_success
                ++ missing_of "generated_text" k_generated_text
                ++ missing_of "prompt" k_prompt
                ++ missing_of "context" k_context
                ++ missing_of "content_type" k_content_type
                ++ missing_of "parameters" k_parameters
                ++ missing_of "error" k_error
                ++ missing_of "processing_time" k_processing_time))
  end.

(** The two readings of [time.time()] around one request. *)
Record Clock : Type := {
  start_time : float;
  end_time : float
}.

(** [try: m  except HTTPException: raise  except Exception as e: h e] *)
Definition try_except_http {A} (m : M A) (h : exn -> M A) : M A :=
  fun s =>
    match m s with
    | (s', Raise e) =>
        if isinstance_HTTPException e then (s', Raise e)
        else if isinstance_Exception e then h e s'
        else (s', Raise e)
    | r => r
    end.

Definition generate_content (clock : Clock) (seed : nat)
  (request : GenerateRequest) : M GenerateResponse :=
  try_except_http
    (ready <- is_ready ;;
     if negb ready then
       raise (HTTPException 503
                (lit "AI model is not ready. Please try again later."))
     else
       let enhanced_prompt :=
         _enhance_prompt_by_type (req_prompt request)
           (pyobj_of_content_type (req_content_type request)) in
       result <- generate_text seed enhanced_prompt
                   (req_max_length request) (req_temperature request)
                   (req_top_p request) (req_context request) ;;
       let processing_time :=
         PrimFloat.sub (end_time clock) (start_time clock) in
       lift (new_GenerateResponse
               (Passed true)
               (Passed (Some (res_generated_text result)))
               (Passed (Some (req_prompt request)))
               (Passed (req_context request))
               (Passed (req_content_type request))
               (Passed (Some (res_parameters result)))
               Omitted
               (Passed (Some processing_time))))
    (fun e =>
       let processing_time :=
         PrimFloat.sub (end_time clock) (start_time clock) in
       let error_msg := str_exn e in
       lift (new_GenerateResponse
               (Passed false)
               Omitted
               (Passed (Some (req_prompt request)))
               (Passed (req_context request))
               (Passed (req_content_type request))
               Omitted
               (Passed (Some error_msg))
               (Passed (Some processing_time)))).

(** What [POST /api/generate] answers.  [Unprocessable422] stands for
    the rejection of the body by the validation, before the handler: the
    framework answers it with status 422 and the error detail, which
    carries the rejected input (how that detail is serialised is not
    modelled).  [Unhandled] is an exception that leaves the handler: the
    framework answers 500. *)
Inductive HttpAnswer : Type :=
| Ok200 (body : GenerateResponse)
| Unprocessable422 (detail : pystr)
| Error (status_code : Z) (detail : pystr)
| Unhandled (e : exn).

(** The route as the framework runs it: the dependency [get_ai_service]
    reads the service from the application state ([None] when the service
    object was never created), the body is validated into a
    [GenerateRequest], then the handler runs. *)
Definition post_generate (clock : Clock) (seed : nat) (raw : RawRequest)
  (app : option AIService) : option AIService * HttpAnswer :=
  match app with
  | None => (app, Error 503 (lit "AI service not available"))
  | Some s =>
      match validate_request raw with
      | Raise e => (app, Unprocessable422 (str_exn e))
      | Return request =>
          match generate_content clock seed request s with
          | (s', Return body) => (Some s', Ok200 body)
          | (s', Raise (HTTPException c d)) => (Some s', Error c d)
          | (s', Raise e) => (Some s', Unhandled e)
          end
      end
  end.

(** ** main.py: start-up of the application *)

Definition lifespan_startup (env : LoadEnv) : AIService * result unit :=
  try_except (initialize env) (fun e => raise e) new_AIService.

(** ** Calls of the facade in sequence *)

(** One call made on the service object by its owner. *)
Inductive Op : Type :=
| OpInitialize (env : LoadEnv)
| OpIsReady
| OpGenerate (seed : nat) (prompt : pystr) (max_length : option Z)
    (temperature top_p : option float) (context : option pystr)
| OpCleanup (cuda : bool).

(** The state after the call and whether the call raised. *)
Definition run_op (o : Op) (s : AIService) : AIService * bool :=
  match o with
  | OpInitialize env => let r := initialize env s in (fst r, is_raise (snd r))
  | OpIsReady => let r := is_ready s in (fst r, is_raise (snd r))
  | OpGenerate seed p ml te tp cx =>
      let r := generate_text seed p ml te tp cx s in
      (fst r, is_raise (snd r))
  | OpCleanup cuda => let r := cleanup cuda s in (fst r, is_raise (snd r))
  end.

Definition run_ops (ops : list Op) (s : AIService) : AIService :=
  fold_left (fun st o => fst (run_op o st)) ops s.

(** The states that another task can observe while [initialize env] runs
    from [s]: after the device is chosen and after each attribute is
    bound, up to the first step that raises; [_ready] is not yet
    written in any of them. *)
Definition initialize_states (env : LoadEnv) (s : AIService)
  : list AIService :=
  let s0 := set_device (chosen_device env) s in
  s0 ::
  if executor_shutdown s0 then [] else
  match tokenizer_from_pretrained env with
  | Raise _ => []
  | Return tok =>
      let s1 := set_tokenizer (Bound (Some tok)) s0 in
      s1 ::
      match model_from_pretrained env with
      | Raise _ => []
      | Return m =>
          let s2 := set_model (Bound (Some m)) s1 in
          s2 ::
          match new_pipeline env m tok with
          | Raise _ => []
          | Return p => [set_pipeline (Bound (Some p)) s2]
          end
      end
  end.

(** The contract of [is_ready()] in the words of the specification: true
    exactly when some [initialize()] returned without raising and no
    [cleanup()] was called since. *)
Fixpoint between_initialize_and_cleanup (ops : list Op) (s : AIService)
  (inside : bool) : bool :=
  match ops with
  | [] => inside
  | o :: rest =>
      let r := run_op o s in
      between_initialize_and_cleanup rest (fst r)
        match o with
        | OpInitialize _ => if snd r then inside else true
        | OpCleanup _ => false
        | OpIsReady | OpGenerate _ _ _ _ _ _ => inside
        end
  end.

Definition is_OpInitialize (o : Op) : bool :=
  match o with OpInitialize _ => true | _ => false end.

(** ** The contract of the effective parameters *)

(** The caller's value where present, the default where absent. *)
Definition supplied_or_default {A} (v : option A) (d : A) : A :=
  match v with
  | Some x => x
  | None => d
  end.

(** The declared bounds of the three generation parameters. *)
Definition within_bounds (p : Parameters) : bool :=
  ((50 <=? p_max_length p)%Z && (p_max_length p <=? 1000)%Z
   && PrimFloat.leb 0.1 (p_temperature p)
   && PrimFloat.leb (p_temperature p) 2.0
   && PrimFloat.leb 0.1 (p_top_p p)
   && PrimFloat.leb (p_top_p p) 1.0)%bool.

(** ** The worker pool and the lock around the pipeline *)

Module Workers.

(** Where one submitted call of [_generate_text_sync] stands. *)
Inductive pc : Type :=
| Queued       (* submitted to the executor, not yet on a worker *)
| AtLock       (* on a worker, at [with self._lock], lock not held *)
| Holding      (* lock acquired, [self.pipeline] not yet called *)
| InPipeline   (* inside [self.pipeline(...)] *)
| AfterCall    (* the call returned or raised, still in the with block *)
| Done.        (* left the with block: lock released *)

(** What is seen at the boundary of the generation resource. *)
Inductive event : Type :=
| Enter (t : nat)
| Leave (t : nat).

Record state : Type := {
  lock : option nat;       (* the task that holds [self._lock] *)
  tasks : list pc;
  events : list event
}.

Definition max_workers : nat := 2.

Inductive action : Type :=
| Start (t : nat)     (* a free worker takes the task *)
| Acquire (t : nat)   (* [self._lock.__enter__] succeeds *)
| Call (t : nat)      (* [self.pipeline(...)] begins *)
| Finish (t : nat)    (* [self.pipeline(...)] returns or raises *)
| Release (t : nat).  (* [self._lock.__exit__], on return and on raise *)

Fixpoint update {A} (l : list A) (n : nat) (x : A) : list A :=
  match l, n with
  | [], _ => []
  | _ :: r, O => x :: r
  | a :: r, S k => a :: update r k x
  end.

Definition on_worker (p : pc) : bool :=
  match p with
  | AtLock | Holding | InPipeline | AfterCall => true
  | Queued | Done => false
  end.

Definition busy (st : state) : nat :=
  List.length (filter on_worker (tasks st)).

Definition at_pc (st : state) (t : nat) (p : pc) : bool :=
  match nth_error (tasks st) t, p with
  | Some Queued, Queued | Some AtLock, AtLock | Some Holding, Holding
  | Some InPipeline, InPipeline | Some AfterCall, AfterCall
  | Some Done, Done => true
  | _, _ => false
  end.

(** One step of one task; [None] when the step is not enabled (a full
    pool, a lock that is held). *)
Definition step (a : action) (st : state) : option state :=
  match a with
  | Start t =>
      if (at_pc st t Queued && (busy st <? max_workers)%nat)%bool then
        Some {| lock := lock st; tasks := update (tasks st) t AtLock;
                events := events st |}
      else None
  | Acquire t =>
      match lock st with
      | None =>
          if at_pc st t AtLock then
            Some {| lock := Some t; tasks := update (tasks st) t Holding;
                    events := events st |}
          else None
      | Some _ => None
      end
  | Call t =>
      if at_pc st t Holding then
        Some {| lock := lock st; tasks := update (tasks st) t InPipeline;
                events := events st ++ [Enter t] |}
      else None
  | Finish t =>
      if at_pc st t InPipeline then
        Some {| lock := lock st; tasks := update (tasks st) t AfterCall;
                events := events st ++ [Leave t] |}
      else None
  | Release t =>
      if at_pc st t AfterCall then
        Some {| lock := None; tasks := update (tasks st) t Done;
                events := events st |}
      else None
  end.

Fixpoint run (sched : list action) (st : state) : option state :=
  match sched with
  | [] => Some st
  | a :: rest =>
      match step a st with
      | Some st' => run rest st'
      | None => None
      end
  end.

(** [n] calls submitted, none started, the lock free. *)
Definition init (n : nat) : state :=
  {| lock := None; tasks := repeat Queued n; events := [] |}.

(** Reading the boundary events in order: who is inside the resource, or
    [None] once two calls overlap or a call leaves that did not enter. *)
Definition track (cur : option (option nat)) (e : event)
  : option (option nat) :=
  match cur, e with
  | Some None, Enter t => Some (Some t)
  | Some (Some u), Leave t => if (u =? t)%nat then Some None else None
  | _, _ => None
  end.

Definition scan (es : list event) : option (option nat) :=
  fold_left track es (Some None).

(** No two call intervals overlap. *)
Definition serial (es : list event) : bool :=
  match scan es with Some _ => true | None => false end.

(** The task is inside its [with self._lock] block. *)
Definition holds (p : pc) : bool :=
  match p with
  | Holding | InPipeline | AfterCall => true
  | Queued | AtLock | Done => false
  end.

(** What every reachable state satisfies: a task inside its with block
    is the holder of the lock, and the boundary events so far are serial
    and end with exactly the task that is inside the pipeline. *)
Definition invariant (st : state) : Prop :=
  (forall t p, nth_error (tasks st) t = Some p -> holds p = true ->
               lock st = Some t)
  /\
  exists cur,
    scan (events st) = Some cur /\
    forall t, nth_error (tasks st) t = Some InPipeline <-> cur = Some t.

End Workers.

(** ** States that the calls of the facade can produce *)

(** While the executor accepts work no attribute has been deleted, and
    the ready flag is set only with a working executor and a pipeline. *)
Definition consistent (s : AIService) : Prop :=
  (executor_shutdown s = false ->
   model s <> Deleted /\ tokenizer s <> Deleted /\ pipeline s <> Deleted)
  /\
  (_ready s = true ->
   executor_shutdown s = false /\ exists p, pipeline s = Bound (Some p)).

(** [s'] is [s] up to the record of the pipeline calls. *)
Definition same_object (s s' : AIService) : Prop :=
  model s' = model s /\ tokenizer s' = tokenizer s /\
  pipeline s' = pipeline s /\ device s' = device s /\
  executor_shutdown s' = executor_shutdown s /\ _ready s' = _ready s.

(** A method that writes no attribute of the object. *)
Definition frames {A} (m : M A) : Prop :=
  forall s, same_object s (fst (m s)).

(** An exception that [except Exception] catches and that is not the
    framework's [HTTPException]. *)
Definition plain_exception (e : exn) : bool :=
  (isinstance_Exception e && negb (isinstance_HTTPException e))%bool.

(** What is left out of the success call of the handler, and of its
    failure call. *)
Definition success_call_error : exn :=
  missing_fields_error "GenerateResponse" ["error"%string].

Definition failure_call_error : exn :=
  missing_fields_error "GenerateResponse"
    ["generated_text"%string; "parameters"%string].

(** The effective parameters of [generate_text]. *)
Definition effective_parameters (max_length : option Z)
  (temperature top_p : option float) : Parameters :=
  {| p_max_length := or_int max_length (Config.max_length Config.settings);
     p_temperature :=
       or_float temperature (Config.temperature Config.settings);
     p_top_p := or_float top_p (Config.top_p Config.settings) |}.

(** A key that equals one of the six members. *)
Definition recognized (k : pyobj) : bool :=
  existsb (key_eqb k) all_ContentType.

(** The parameters of a request in the words of the specification, with
    the configured defaults written out. *)
Definition specified_parameters (request : GenerateRequest) : Parameters :=
  {| p_max_length := supplied_or_default (req_max_length request) 512%Z;
     p_temperature := supplied_or_default (req_temperature request) 0.7%float;
     p_top_p := supplied_or_default (req_top_p request) 0.9%float |}.

(** ** Sample environments and requests *)

Definition sample_tokenizer : Tokenizer := {| eos_token_id := Some 0%Z |}.

Definition sample_model : Model := {| model_handle := 1 |}.

(** A pipeline that answers every prompt with the same padded text. *)
Definition answering_pipeline : Pipeline :=
  {| run_pipeline := fun _ _ =>
       Return [lit "  Plants turn light into sugar. "] |}.

(** A pipeline whose every call runs out of memory. *)
Definition exhausted_pipeline : Pipeline :=
  {| run_pipeline := fun _ _ =>
       Raise (RuntimeError (lit "CUDA out of memory")) |}.

Definition loading_env (p : Pipeline) : LoadEnv :=
  {| cuda_is_available := false;
     tokenizer_from_pretrained := Return sample_tokenizer;
     model_from_pretrained := Return sample_model;
     new_pipeline := fun _ _ => Return p |}.

(** The tokenizer loads, then the model does not fit in memory. *)
Definition out_of_memory_env : LoadEnv :=
  {| cuda_is_available := true;
     tokenizer_from_pretrained := Return sample_tokenizer;
     model_from_pretrained :=
       Raise (OtherException (lit "OutOfMemoryError")
                (lit "CUDA out of memory"));
     new_pipeline := fun _ _ => Return answering_pipeline |}.

Definition ready_service (p : Pipeline) : AIService :=
  fst (initialize (loading_env p) new_AIService).

Definition sample_clock : Clock :=
  {| start_time := 100%float; end_time := 102.5%float |}.

Definition photosynthesis_body : RawRequest :=
  {| raw_prompt := Given (lit "Photosynthesis");
     raw_content_type := Given (lit "definition");
     raw_context := Absent;
     raw_max_length := Absent;
     raw_temperature := Absent;
     raw_top_p := Absent |}.

(** The request that [photosynthesis_body] validates to. *)
Definition photosynthesis_request : GenerateRequest :=
  {| req_prompt := lit "Photosynthesis";
     req_content_type := Some DEFINITION;
     req_context := None;
     req_max_length := None;
     req_temperature := None;
     req_top_p := None |}.

Definition blank_body : RawRequest :=
  {| raw_prompt := Given (lit "   ");
     raw_content_type := Absent;
     raw_context := Absent;
     raw_max_length := Absent;
     raw_temperature := Absent;
     raw_top_p := Absent |}.

Definition padded_body : RawRequest :=
  {| raw_prompt := Given (lit "  Osmosis ");
     raw_content_type := Given (lit "quiz");
     raw_context := Null;
     raw_max_length := Given 200%Z;
     raw_temperature := Given 1.5%float;
     raw_top_p := Absent |}.

(** A pipeline whose call is cancelled: the exception is not a subclass
    of [Exception]. *)
Definition cancelled_pipeline : Pipeline :=
  {| run_pipeline := fun _ _ =>
       Raise (OtherBaseException (lit "CancelledError") []) |}.

(** The request that [padded_body] validates to. *)
Definition padded_request : GenerateRequest :=
  {| req_prompt := lit "Osmosis";
     req_content_type := Some QUIZ;
     req_context := None;
     req_max_length := Some 200%Z;
     req_temperature := Some 1.5%float;
     req_top_p := None |}.

(** A body whose context is only whitespace. *)
Definition blank_context_body : RawRequest :=
  {| raw_prompt := Given (lit "Osmosis");
     raw_content_type := Absent;
     raw_context := Given (lit "   ");
     raw_max_length := Absent;
     raw_temperature := Absent;
     raw_top_p := Absent |}.

(** ** Further code of api/routes.py and main.py *)

(** The dependency of the routes; a service object is a true value. *)
Definition get_ai_service (app : option AIService) : result AIService :=
  match app with
  | Some ai_service => Return ai_service
  | None => Raise (HTTPException 503 (lit "AI service not available"))
  end.

Record HealthResponse : Type := {
  status : pystr;
  service : pystr;
  model_loaded : bool;
  timestamp : option pystr
}.

(** [GET /api/health]; [now] is [datetime.now().isoformat()]. *)
Definition health_check (now : pystr) : M HealthResponse :=
  ready <- is_ready ;;
  ret {| status := lit "healthy";
         service := lit "EducatorAI";
         model_loaded := ready;
         timestamp := Some now |}.

(** What a route answers: the body its handler returned, the error
    response of an [HTTPException], or an exception that left the
    handler. *)
Inductive Answer (A : Type) : Type :=
| Answered (body : A)
| Refused (status_code : Z) (detail : pystr)
| Crashed (e : exn).
Arguments Answered {A} body.
Arguments Refused {A} status_code detail.
Arguments Crashed {A} e.

Definition answer_of {A} (r : result A) : Answer A :=
  match r with
  | Return body => Answered body
  | Raise (HTTPException c d) => Refused c d
  | Raise e => Crashed e
  end.

(** [GET /api/health] as the framework runs it. *)
Definition get_api_health (now : pystr) (app : option AIService)
  : Answer HealthResponse :=
  match get_ai_service app with
  | Return s => answer_of (snd (health_check now s))
  | Raise e => answer_of (Raise e)
  end.

(** The dictionary that [GET /health] of main.py returns. *)
Record MainHealth : Type := {
  main_status : pystr;
  main_service : pystr;
  main_model_loaded : bool
}.

(** [health_check] of main.py, on the global [ai_service]. *)
Definition main_health_check (app : option AIService) : result MainHealth :=
  bind_result
    match app with
    | None => Return false
    | Some s => snd (is_ready s)
    end
    (fun loaded =>
       Return {| main_status := lit "healthy";
                 main_service := lit "EducatorAI";
                 main_model_loaded := loaded |}).

Definition descriptions : dict :=
  [ (EXPLANATION, lit "Detailed explanations with examples");
    (SUMMARY, lit "Concise summaries of key points");
    (QUIZ, lit "Quiz questions and answers");
    (LESSON, lit "Structured lesson plans");
    (EXAMPLE, lit "Practical examples and applications");
    (DEFINITION, lit "Clear definitions and explanations") ].

Definition _get_content_type_description (content_type : pyobj) : pystr :=
  dict_get descriptions content_type (lit "Educational content").

(** [s.replace(old, new)] for strings [old] and [new] of one character. *)
Definition replace_char (old new : N) (s : pystr) : pystr :=
  map (fun c => if (c =? old)%N then new else c) s.

Record ContentTypeEntry : Type := {
  entry_value : pystr;
  entry_label : pystr;
  entry_description : pystr
}.

(** [GET /api/content-types]; [title] is [str.title]. *)
Definition get_content_types (title : pystr -> pystr)
  : list ContentTypeEntry :=
  map (fun content_type =>
         {| entry_value := ContentType_value content_type;
            entry_label :=
              title (replace_char 95 32 (ContentType_value content_type));
            entry_description :=
              _get_content_type_description (PyMember content_type) |})
    all_ContentType.

(** The shutdown half of [lifespan]: [if ai_service: await
    ai_service.cleanup()]. *)
Definition lifespan_shutdown (cuda : bool) (app : option AIService)
  : option AIService * result unit :=
  match app with
  | Some s => let r := cleanup cuda s in (Some (fst r), snd r)
  | None => (None, Return tt)
  end.

(** A request that the running application serves. *)
Inductive Served : Type :=
| ServedGenerate (clock : Clock) (seed : nat) (raw : RawRequest)
| ServedHealth (now : pystr).

(** The service object after the request was served. *)
Definition serve (r : Served) (s : AIService) : AIService :=
  match r with
  | ServedGenerate clock seed raw =>
      match fst (post_generate clock seed raw (Some s)) with
      | Some s' => s'
      | None => s
      end
  | ServedHealth now => fst (health_check now s)
  end.

Definition serve_all (rs : list Served) (s : AIService) : AIService :=
  fold_left (fun st r => serve r st) rs s.

(** A ready service has its tokenizer. *)
Definition tokenizer_loaded (s : AIService) : Prop :=
  _ready s = true -> exists tok, tokenizer s = Bound (Some tok).

(** ** Progress of the worker pool *)

(** How far a task has come: the number of steps it has taken. *)
Definition rank (p : Workers.pc) : nat :=
  match p with
  | Workers.Queued => 0
  | Workers.AtLock => 1
  | Workers.Holding => 2
  | Workers.InPipeline => 3
  | Workers.AfterCall => 4
  | Workers.Done => 5
  end.

Definition progress (st : Workers.state) : nat :=
  list_sum (map rank (Workers.tasks st)).

Definition pc_eqb (p q : Workers.pc) : bool := (rank p =? rank q)%nat.

Definition all_done (st : Workers.state) : bool :=
  forallb (pc_eqb Workers.Done) (Workers.tasks st).

(** The index of the first task that satisfies [f]. *)
Fixpoint first_index (f : Workers.pc -> bool) (l : list Workers.pc)
  : option nat :=
  match l with
  | [] => None
  | p :: r =>
      if f p then Some 0%nat
      else match first_index f r with
           | Some t => Some (S t)
           | None => None
           end
  end.

(** A step to take next: the task that is furthest inside its with
    block first, then a task waiting at the lock, then a queued task. *)
Definition next_action (st : Workers.state) : option Workers.action :=
  let at_ p := first_index (pc_eqb p) (Workers.tasks st) in
  match at_ Workers.AfterCall with
  | Some t => Some (Workers.Release t)
  | None =>
  match at_ Workers.InPipeline with
  | Some t => Some (Workers.Finish t)
  | None =>
  match at_ Workers.Holding with
  | Some t => Some (Workers.Call t)
  | None =>
  match at_ Workers.AtLock with
  | Some t => Some (Workers.Acquire t)
  | None =>
  match at_ Workers.Queued with
  | Some t => Some (Workers.Start t)
  | None => None
  end end end end end.

(** Taking [next_action] up to [fuel] times; the steps taken and the
    state reached. *)
Fixpoint drain (fuel : nat) (st : Workers.state)
  : list Workers.action * Workers.state :=
  match fuel with
  | O => ([], st)
  | S k =>
      match next_action st with
      | None => ([], st)
      | Some a =>
          match Workers.step a st with
          | None => ([], st)
          | Some st' => let r := drain k st' in (a :: fst r, snd r)
          end
      end
  end.

(** What every reachable state of the pool satisfies, beyond
    [Workers.invariant]: the holder of the lock is inside its with block,
    at most [max_workers] tasks are on workers, and no task was added or
    removed. *)
Definition pool_invariant (n : nat) (st : Workers.state) : Prop :=
  Workers.invariant st /\
  (forall t, Workers.lock st = Some t ->
             exists p, nth_error (Workers.tasks st) t = Some p /\
                       Workers.holds p = true) /\
  (Workers.busy st <= Workers.max_workers)%nat /\
  List.length (Workers.tasks st) = n.

(** How one step moves one task. *)
Inductive move : Workers.pc -> Workers.pc -> Prop :=
| move_start : move Workers.Queued Workers.AtLock
| move_acquire : move Workers.AtLock Workers.Holding
| move_call : move Workers.Holding Workers.InPipeline
| move_finish : move Workers.InPipeline Workers.AfterCall
| move_release : move Workers.AfterCall Workers.Done.

(** The boundary events that the tasks account for: one for a task
    inside the pipeline, two for a task that has left it. *)
Definition has_entered (p : Workers.pc) : bool := (3 <=? rank p)%nat.

Definition has_left (p : Workers.pc) : bool := (4 <=? rank p)%nat.

Definition events_due (l : list Workers.pc) : nat :=
  (List.length (filter has_entered l)
   + List.length (filter has_left l))%nat.

(** Three calls on the two workers, the third still waiting. *)
Definition sample_schedule : list Workers.action :=
  [Workers.Start 0; Workers.Start 1; Workers.Acquire 1; Workers.Call 1;
   Workers.Finish 1; Workers.Release 1; Workers.Acquire 0;
   Workers.Start 2; Workers.Call 0].

(** ** streamlit_app.py: the topic of a prompt *)

(** [str.split()] with no argument: the maximal runs of characters that
    are not whitespace; [cur] is the run being read, last character
    first. *)
Fixpoint split_from (cur : pystr) (s : pystr) : list pystr :=
  match s with
  | [] => match cur with [] => [] | _ => [rev cur] end
  | c :: t =>
      if is_space c then
        match cur with
        | [] => split_from [] t
        | _ => rev cur :: split_from [] t
        end
      else split_from (c :: cur) t
  end.

Definition split (s : pystr) : list pystr := split_from [] s.

(** [sep.join(words)] *)
Fixpoint join (sep : pystr) (words : list pystr) : pystr :=
  match words with
  | [] => []
  | [w] => w
  | w :: rest => w ++ sep ++ join sep rest
  end.

Definition stop_words : list pystr :=
  [lit "what"; lit "how"; lit "why"; lit "where"; lit "when"; lit "who";
   lit "is"; lit "are"; lit "the"; lit "a"; lit "an"; lit "about";
   lit "of"; lit "for"; lit "in"; lit "on"; lit "to"; lit "with"].

(** [word not in stop_words and len(word) > 2] *)
Definition meaningful (word : pystr) : bool :=
  (negb (existsb (pystr_eqb word) stop_words) && (2 <? len word)%Z)%bool.

(** [lower] is [str.lower]. *)
Definition extract_topic (lower : pystr -> pystr) (prompt : pystr) : pystr :=
  let words := split (lower prompt) in
  let filtered_words := filter meaningful words in
  match filtered_words with
  | [] => firstn 50 prompt
  | _ => join (lit " ") (firstn 3 filtered_words)
  end.

(** * Properties *)

(** ** Trimming *)

Lemma lstrip_split (s : pystr) :
  exists ws, s = ws ++ lstrip s /\ forallb is_space ws = true.
Proof.
  induction s as [|c t IH]; simpl.
  - exists []. split; reflexivity.
  - destruct (is_space c) eqn:Hc.
    + destruct IH as [ws [Heq Hws]]. exists (c :: ws). split.
      * simpl. rewrite <- Heq. reflexivity.
      * simpl. rewrite Hc. exact Hws.
    + exists []. split; reflexivity.
Qed.

Lemma lstrip_head (s : pystr) (c : N) (t : pystr) :
  lstrip s = c :: t -> is_space c = false.
Proof.
  induction s as [|a u IH]; simpl; [discriminate|].
  destruct (is_space a) eqn:Ha; [exact IH|].
  intros H. injection H as -> _. exact Ha.
Qed.

Lemma lstrip_fixed (s : pystr) :
  match s with [] => True | c :: _ => is_space c = false end ->
  lstrip s = s.
Proof. destruct s as [|c t]; simpl; [reflexivity|]. now intros ->. Qed.

Lemma lstrip_idem (s : pystr) : lstrip (lstrip s) = lstrip s.
Proof.
  apply lstrip_fixed. destruct (lstrip s) as [|c t] eqn:E; [exact I|].
  exact (lstrip_head s E).
Qed.

Lemma strip_fixed (s : pystr) :
  lstrip s = s -> lstrip (rev s) = rev s -> strip s = s.
Proof.
  intros Hl Hr. unfold strip, rstrip. rewrite Hl, Hr. apply rev_involutive.
Qed.

Lemma strip_lstrip_fixed (s : pystr) : lstrip (strip s) = strip s.
Proof.
  unfold strip, rstrip.
  destruct (lstrip_split (rev (lstrip s))) as [ws [Heq _]].
  set (b := lstrip (rev (lstrip s))) in *.
  apply lstrip_fixed.
  destruct (rev b) as [|c t] eqn:Eb; [exact I|].
  assert (Ha : lstrip s = c :: t ++ rev ws).
  { rewrite <- (rev_involutive (lstrip s)), Heq, rev_app_distr, Eb.
    reflexivity. }
  exact (lstrip_head s Ha).
Qed.

Lemma strip_rstrip_fixed (s : pystr) :
  lstrip (rev (strip s)) = rev (strip s).
Proof.
  unfold strip, rstrip. rewrite rev_involutive. apply lstrip_idem.
Qed.

Lemma strip_idem (s : pystr) : strip (strip s) = strip s.
Proof.
  apply strip_fixed; [apply strip_lstrip_fixed | apply strip_rstrip_fixed].
Qed.

Lemma strip_first (s : pystr) (c : N) (t : pystr) :
  strip s = c :: t -> is_space c = false.
Proof.
  intros H. apply (@lstrip_head (strip s) c t).
  rewrite strip_lstrip_fixed. exact H.
Qed.

Lemma strip_last (s : pystr) (c : N) (t : pystr) :
  strip s = t ++ [c] -> is_space c = false.
Proof.
  intros H. apply (@lstrip_head (rev (strip s)) c (rev t)).
  rewrite strip_rstrip_fixed, H, rev_app_distr. reflexivity.
Qed.

Lemma truthy_str_nonempty (s : pystr) : truthy_str s = true <-> s <> [].
Proof. destruct s; simpl; split; congruence. Qed.

(** ** Validation of the prompt *)

Lemma validate_prompt_blank (v : pystr) :
  strip v = [] ->
  validate_prompt v = Raise (ValueError (lit "Prompt cannot be empty")).
Proof. intros H. unfold validate_prompt. rewrite H. reflexivity. Qed.

Lemma validate_prompt_ok (v p : pystr) :
  validate_prompt v = Return p -> p = strip v /\ p <> [].
Proof.
  unfold validate_prompt. destruct (truthy_str (strip v)) eqn:E; simpl.
  - intros H. injection H as <-. split; [reflexivity|].
    now apply truthy_str_nonempty.
  - discriminate.
Qed.

Lemma check_prompt_blank (v : pystr) :
  strip v = [] -> exists e, check_prompt (Given v) = Raise e.
Proof.
  intros H. unfold check_prompt.
  destruct (len v <? 1)%Z; [eauto|].
  destruct (1000 <? len v)%Z; [eauto|].
  rewrite (validate_prompt_blank _ H). eauto.
Qed.

Lemma check_prompt_ok (f : field pystr) (p : pystr) :
  check_prompt f = Return p ->
  exists v, f = Given v /\ p = strip v /\ p <> [] /\
            (1 <= len v <= 1000)%Z.
Proof.
  destruct f as [| |v]; simpl; try discriminate.
  destruct (len v <? 1)%Z eqn:E1; [discriminate|].
  destruct (1000 <? len v)%Z eqn:E2; [discriminate|].
  intros H. apply validate_prompt_ok in H as [-> Hne].
  exists v. repeat split; trivial; lia.
Qed.

Lemma bind_result_Return {A B} (r : result A) (k : A -> result B) (b : B) :
  bind_result r k = Return b -> exists a, r = Return a /\ k a = Return b.
Proof. destruct r as [a|e]; simpl; [eauto | discriminate]. Qed.

Lemma validate_request_prompt (raw : RawRequest) (req : GenerateRequest) :
  validate_request raw = Return req ->
  check_prompt (raw_prompt raw) = Return (req_prompt req).
Proof.
  unfold validate_request. intros H.
  repeat (apply bind_result_Return in H as [? [? H]]).
  injection H as <-. simpl. assumption.
Qed.

(** C7: a prompt that is empty once trimmed is rejected when the request
    body is validated: the route answers 422 from the validation alone,
    whatever the service, and leaves the service object as it was, so no
    method of the facade runs.  A prompt that passes validation is stored
    as the trimmed text: it is not empty, trimming it again changes
    nothing, and it neither starts nor ends with a whitespace character. *)
Theorem blank_prompt_rejected_valid_prompt_trimmed (raw : RawRequest) (v : pystr) :
  raw_prompt raw = Given v ->
  (strip v = [] ->
   (exists e, validate_request raw = Raise e) /\
   forall clock seed s,
     exists detail,
       post_generate clock seed raw (Some s) = (Some s, Unprocessable422 detail))
  /\
  (forall req,
     validate_request raw = Return req ->
     req_prompt req = strip v /\
     req_prompt req <> [] /\
     strip (req_prompt req) = req_prompt req /\
     (forall c t, req_prompt req = c :: t -> is_space c = false) /\
     (forall c t, req_prompt req = t ++ [c] -> is_space c = false)).
Proof.
  intros Hraw. split.
  - intros Hblank.
    assert (Hv : exists e, validate_request raw = Raise e).
    { unfold validate_request. rewrite Hraw.
      destruct (check_prompt_blank v Hblank) as [e ->]. simpl. eauto. }
    split; [exact Hv|].
    intros clock seed s. destruct Hv as [e He].
    exists (str_exn e). unfold post_generate. rewrite He. reflexivity.
  - intros req Hreq. apply validate_request_prompt in Hreq.
    apply check_prompt_ok in Hreq as [v' [Hf [Hp [Hne _]]]].
    rewrite Hraw in Hf. injection Hf as <-.
    rewrite Hp. repeat split.
    + rewrite <- Hp. exact Hne.
    + apply strip_idem.
    + intros c t. apply strip_first.
    + intros c t. apply strip_last.
Qed.

(** ** Readiness *)

Lemma is_ready_state (s : AIService) : fst (is_ready s) = s.
Proof.
  unfold is_ready, bind, read, getattr, ret.
  destruct (_ready s); [destruct (pipeline s)|]; reflexivity.
Qed.

Lemma is_ready_eq (s : AIService) (b : bool) :
  snd (is_ready s) = Return b -> is_ready s = (s, Return b).
Proof.
  intros H. pose proof (is_ready_state s) as Hs.
  destruct (is_ready s) as [s' r]. simpl in *. congruence.
Qed.

Lemma is_ready_true (s : AIService) :
  snd (is_ready s) = Return true <->
  _ready s = true /\ exists p, pipeline s = Bound (Some p).
Proof.
  unfold is_ready, bind, read, getattr, ret.
  destruct (_ready s); simpl.
  - destruct (pipeline s) as [|[p|]]; simpl; split.
    all: try discriminate.
    all: try (intros [_ [q Hq]]; discriminate).
    + intros _. eauto.
    + reflexivity.
  - split; [discriminate | intros [H _]; discriminate].
Qed.

Lemma is_ready_not_ready_flag (s : AIService) :
  _ready s = false -> snd (is_ready s) = Return false.
Proof.
  intros H. unfold is_ready, bind, read, getattr, ret. rewrite H. reflexivity.
Qed.

(** C1: when [is_ready()] is false, [generate_text] raises the
    not-ready error at once: the service object is exactly as before, so
    the pipeline was not called and nothing was produced; the handler of
    the route raises the 503 signal in the same way, and the route answers
    503. *)
Theorem generate_text_not_ready_fails_fast (s : AIService) (seed : nat)
  (p : pystr) (ml : option Z) (te tp : option float) (cx : option pystr) :
  snd (is_ready s) = Return false ->
  generate_text seed p ml te tp cx s
    = (s, Raise (RuntimeError (lit "AI service is not ready")))
  /\
  (forall clock request,
     generate_content clock seed request s
       = (s, Raise (HTTPException 503
                      (lit "AI model is not ready. Please try again later."))))
  /\
  (forall clock raw request,
     validate_request raw = Return request ->
     post_generate clock seed raw (Some s)
       = (Some s,
          Error 503 (lit "AI model is not ready. Please try again later."))).
Proof.
  intros H. apply is_ready_eq in H.
  assert (Hh : forall clock request,
     generate_content clock seed request s
       = (s, Raise (HTTPException 503
                      (lit "AI model is not ready. Please try again later.")))).
  { intros clock request.
    unfold generate_content, try_except_http, bind. rewrite H. reflexivity. }
  split; [|split].
  - unfold generate_text, bind. rewrite H. reflexivity.
  - exact Hh.
  - intros clock raw request Hv. unfold post_generate.
    rewrite Hv, Hh. reflexivity.
Qed.

Lemma blank_prompt_rejected_witness :
  (exists e, validate_request blank_body = Raise e) /\
  (exists detail,
     post_generate sample_clock 0 blank_body
       (Some (ready_service answering_pipeline))
     = (Some (ready_service answering_pipeline), Unprocessable422 detail)) /\
  (forall req,
     validate_request padded_body = Return req ->
     req_prompt req = lit "Osmosis").
Proof.
  split; [|split].
  - apply (blank_prompt_rejected_valid_prompt_trimmed blank_body (v := lit "   "));
      reflexivity.
  - apply (blank_prompt_rejected_valid_prompt_trimmed blank_body (v := lit "   "));
      reflexivity.
  - intros req Hreq.
    apply (blank_prompt_rejected_valid_prompt_trimmed padded_body
             (v := lit "  Osmosis ") eq_refl) in Hreq.
    destruct Hreq as [H _]. rewrite H. reflexivity.
Defined.

Lemma generate_text_not_ready_witness :
  generate_text 0 (lit "Photosynthesis") None None None None new_AIService
  = (new_AIService, Raise (RuntimeError (lit "AI service is not ready"))).
Proof.
  apply (generate_text_not_ready_fails_fast new_AIService 0
           (lit "Photosynthesis") None None None None).
  reflexivity.
Defined.

(** ** The lifecycle of the service object *)

Ltac run_m :=
  unfold try_except, try_except_http, bind, lift, modify, read, ret, raise,
    getattr, run_in_executor; simpl.

(** [initialize] step by step. *)
Lemma initialize_unfold (env : LoadEnv) (s : AIService) :
  initialize env s =
  let s0 := set_device (chosen_device env) s in
  if executor_shutdown s then
    (s0, Raise (RuntimeError
                  (lit "cannot schedule new futures after shutdown")))
  else
    match tokenizer_from_pretrained env with
    | Raise e => (s0, Raise e)
    | Return tok =>
        let s1 := set_tokenizer (Bound (Some tok)) s0 in
        match model_from_pretrained env with
        | Raise e => (s1, Raise e)
        | Return m =>
            let s2 := set_model (Bound (Some m)) s1 in
            match new_pipeline env m tok with
            | Raise e => (s2, Raise e)
            | Return p =>
                (set_ready true (set_pipeline (Bound (Some p)) s2),
                 Return tt)
            end
        end
    end.
Proof.
  unfold initialize, _load_model. run_m.
  destruct (executor_shutdown s); [reflexivity|].
  destruct (tokenizer_from_pretrained env) as [tok|e]; simpl.
  2: destruct (isinstance_Exception e) eqn:E; simpl; rewrite ?E; reflexivity.
  destruct (model_from_pretrained env) as [m|e]; simpl.
  2: destruct (isinstance_Exception e) eqn:E; simpl; rewrite ?E; reflexivity.
  destruct (new_pipeline env m tok) as [p|e]; simpl.
  2: destruct (isinstance_Exception e) eqn:E; simpl; rewrite ?E; reflexivity.
  reflexivity.
Qed.

(** [initialize] ends in the last of the states it passes through, with
    the ready flag written when nothing raised. *)
Lemma initialize_last_state (env : LoadEnv) (s : AIService) :
  fst (initialize env s) =
  let l := last (initialize_states env s) s in
  if is_raise (snd (initialize env s)) then l else set_ready true l.
Proof.
  rewrite initialize_unfold. unfold initialize_states. simpl.
  destruct (executor_shutdown s); [reflexivity|].
  destruct (tokenizer_from_pretrained env) as [tok|e]; [|reflexivity].
  destruct (model_from_pretrained env) as [m|e]; [|reflexivity].
  destruct (new_pipeline env m tok) as [p|e]; reflexivity.
Qed.

Lemma initialize_states_ready_flag (env : LoadEnv) (s s' : AIService) :
  In s' (initialize_states env s) -> _ready s' = _ready s.
Proof.
  unfold initialize_states. simpl.
  destruct (executor_shutdown s).
  { simpl. intros [<-|[]]. reflexivity. }
  destruct (tokenizer_from_pretrained env) as [tok|e].
  2: { simpl. intros [<-|[]]. reflexivity. }
  destruct (model_from_pretrained env) as [m|e].
  2: { simpl. intros [<-|[<-|[]]]; reflexivity. }
  destruct (new_pipeline env m tok) as [p|e]; simpl.
  - intros [<-|[<-|[<-|[<-|[]]]]]; reflexivity.
  - intros [<-|[<-|[<-|[]]]]; reflexivity.
Qed.

Lemma consistent_new : consistent new_AIService.
Proof.
  split; simpl; [intros _; repeat split; discriminate | discriminate].
Qed.

Lemma initialize_consistent (env : LoadEnv) (s : AIService) :
  consistent s ->
  consistent (fst (initialize env s)) /\
  _ready (fst (initialize env s))
  = if is_raise (snd (initialize env s)) then _ready s else true.
Proof.
  intros [H1 H2]. rewrite initialize_unfold. simpl.
  destruct (executor_shutdown s) eqn:Hx.
  { simpl. split; [|reflexivity]. split; simpl.
    - rewrite Hx. discriminate.
    - intros Hr. destruct (H2 Hr) as [Hx' _]. discriminate. }
  specialize (H1 eq_refl). destruct H1 as [Hm [Ht Hp]].
  destruct (tokenizer_from_pretrained env) as [tok|e]; simpl.
  2: { split; [|reflexivity]. split; simpl; rewrite ?Hx; [tauto|exact H2]. }
  destruct (model_from_pretrained env) as [m|e]; simpl.
  2: { split; [|reflexivity]. split; simpl; rewrite ?Hx; [|exact H2].
       intros _. repeat split; trivial; discriminate. }
  destruct (new_pipeline env m tok) as [p|e]; simpl.
  - split; [|reflexivity]. split; simpl; rewrite ?Hx.
    + intros _. repeat split; discriminate.
    + intros _. split; [reflexivity|eauto].
  - split; [|reflexivity]. split; simpl; rewrite ?Hx; [|exact H2].
    intros _. repeat split; trivial; discriminate.
Qed.

Lemma cleanup_consistent (cuda : bool) (s : AIService) :
  consistent s ->
  consistent (fst (cleanup cuda s)) /\ _ready (fst (cleanup cuda s)) = false.
Proof.
  intros [H1 H2].
  assert (Hcase : _ready s = false \/
            (model s <> Deleted /\ tokenizer s <> Deleted
             /\ pipeline s <> Deleted)).
  { destruct (_ready s); [right|left; reflexivity].
    destruct (H2 eq_refl) as [Hx _]. exact (H1 Hx). }
  clear H1 H2. unfold consistent, cleanup, del_if_truthy. run_m.
  destruct s as [[|[m|]] [|[t|]] [|[p|]] d x r c]; destruct cuda;
    simpl in *.
  all: try (destruct Hcase as [Hr|[? [? ?]]]; [rewrite Hr|congruence]).
  all: repeat split; try discriminate; try reflexivity.
Qed.

Lemma cleanup_bound_returns (cuda : bool) (s : AIService) :
  model s <> Deleted -> tokenizer s <> Deleted -> pipeline s <> Deleted ->
  snd (cleanup cuda s) = Return tt.
Proof.
  unfold cleanup, del_if_truthy. run_m.
  destruct s as [[|[m|]] [|[t|]] [|[p|]] d x r c]; destruct cuda;
    simpl; intros; congruence.
Qed.

Lemma same_object_refl (s : AIService) : same_object s s.
Proof. repeat split. Qed.

Lemma same_object_trans (s1 s2 s3 : AIService) :
  same_object s1 s2 -> same_object s2 s3 -> same_object s1 s3.
Proof.
  unfold same_object. intros [? [? [? [? [? ?]]]]] [? [? [? [? [? ?]]]]].
  repeat split; congruence.
Qed.

Lemma frames_ret {A} (a : A) : frames (ret a).
Proof. intros s. apply same_object_refl. Qed.

Lemma frames_raise {A} (e : exn) : frames (@raise A e).
Proof. intros s. apply same_object_refl. Qed.

Lemma frames_lift {A} (r : result A) : frames (lift r).
Proof. intros s. apply same_object_refl. Qed.

Lemma frames_read {A} (f : AIService -> A) : frames (read f).
Proof. intros s. apply same_object_refl. Qed.

Lemma frames_getattr {A} (name : string) (f : AIService -> attr A) :
  frames (getattr name f).
Proof.
  intros s. unfold getattr. destruct (f s); apply same_object_refl.
Qed.

Lemma frames_log_call (c : PipelineCall) : frames (modify (log_call c)).
Proof. intros s. repeat split. Qed.

Lemma frames_bind {A B} (m : M A) (k : A -> M B) :
  frames m -> (forall a, frames (k a)) -> frames (bind m k).
Proof.
  intros Hm Hk s. unfold bind. specialize (Hm s).
  destruct (m s) as [s' [a|e]]; simpl in *; [|exact Hm].
  exact (same_object_trans Hm (Hk a s')).
Qed.

Lemma frames_try_except {A} (m : M A) (h : exn -> M A) :
  frames m -> (forall e, frames (h e)) -> frames (try_except m h).
Proof.
  intros Hm Hh s. unfold try_except. specialize (Hm s).
  destruct (m s) as [s' [a|e]]; simpl in *; [exact Hm|].
  destruct (isinstance_Exception e); [|exact Hm].
  exact (same_object_trans Hm (Hh e s')).
Qed.

Lemma frames_run_in_executor {A} (fn : M A) :
  frames fn -> frames (run_in_executor fn).
Proof.
  intros H s. unfold run_in_executor.
  destruct (executor_shutdown s); [apply same_object_refl|apply H].
Qed.

Lemma frames_is_ready : frames is_ready.
Proof.
  unfold is_ready. apply frames_bind; [apply frames_read|].
  intros [|]; [|apply frames_ret].
  apply frames_bind; [apply frames_getattr|]. intros p. apply frames_ret.
Qed.

Lemma frames_call_pipeline (seed : nat) (p : pystr) (ml : Z)
  (te tp : float) : frames (call_pipeline seed p ml te tp).
Proof.
  unfold call_pipeline.
  apply frames_bind; [apply frames_getattr|]. intros pl.
  apply frames_bind; [apply frames_getattr|]. intros [tok|].
  - destruct pl as [pl|]; [|apply frames_raise].
    apply frames_bind; [apply frames_log_call|]. intros _. apply frames_lift.
  - apply frames_raise.
Qed.

Lemma frames_generate_text_sync (seed : nat) (p : pystr) (ml : Z)
  (te tp : float) : frames (_generate_text_sync seed p ml te tp).
Proof.
  unfold _generate_text_sync.
  apply frames_try_except; [|intros e; apply frames_raise].
  apply frames_bind; [apply frames_call_pipeline|].
  intros [|g r]; [apply frames_raise|apply frames_ret].
Qed.

(** [generate_text] writes nothing of the object but the record of the
    pipeline calls. *)
Lemma generate_text_frame (seed : nat) (p : pystr) (ml : option Z)
  (te tp : option float) (cx : option pystr) :
  frames (generate_text seed p ml te tp cx).
Proof.
  unfold generate_text.
  apply frames_bind; [apply frames_is_ready|].
  intros [|]; simpl; [|apply frames_raise].
  apply frames_try_except; [|intros e; apply frames_raise].
  apply frames_bind.
  - apply frames_run_in_executor, frames_generate_text_sync.
  - intros r. apply frames_ret.
Qed.

Lemma generate_text_consistent (seed : nat) (p : pystr) (ml : option Z)
  (te tp : option float) (cx : option pystr) (s : AIService) :
  consistent s -> consistent (fst (generate_text seed p ml te tp cx s)).
Proof.
  intros H.
  destruct (generate_text_frame seed p ml te tp cx s)
    as [Hm [Ht [Hp [_ [Hx Hr]]]]].
  unfold consistent. rewrite Hm, Ht, Hp, Hx, Hr. exact H.
Qed.

Lemma run_op_consistent (o : Op) (s : AIService) :
  consistent s ->
  consistent (fst (run_op o s)) /\
  _ready (fst (run_op o s))
  = match o with
    | OpInitialize _ => if snd (run_op o s) then _ready s else true
    | OpCleanup _ => false
    | OpIsReady | OpGenerate _ _ _ _ _ _ => _ready s
    end.
Proof.
  intros H. destruct o as [env| |seed p ml te tp cx|cuda]; simpl.
  - apply initialize_consistent. exact H.
  - rewrite is_ready_state. split; [exact H|reflexivity].
  - split; [apply generate_text_consistent; exact H|].
    apply (generate_text_frame seed p ml te tp cx s).
  - apply cleanup_consistent. exact H.
Qed.

Lemma consistent_is_ready (s : AIService) :
  consistent s -> snd (is_ready s) = Return (_ready s).
Proof.
  intros [_ H2]. destruct (_ready s) eqn:Hr.
  - apply is_ready_true. split; [exact Hr|]. apply H2. reflexivity.
  - apply is_ready_not_ready_flag. exact Hr.
Qed.

Lemma run_ops_cons (o : Op) (ops : list Op) (s : AIService) :
  run_ops (o :: ops) s = run_ops ops (fst (run_op o s)).
Proof. reflexivity. Qed.

Lemma run_ops_consistent (ops : list Op) (s : AIService) :
  consistent s ->
  consistent (run_ops ops s) /\
  _ready (run_ops ops s) = between_initialize_and_cleanup ops s (_ready s).
Proof.
  revert s. induction ops as [|o ops IH]; intros s H.
  - split; [exact H|reflexivity].
  - destruct (run_op_consistent o H) as [Hc Hr].
    destruct (IH _ Hc) as [Hc' Hr'].
    rewrite run_ops_cons. split; [exact Hc'|].
    rewrite Hr', Hr. cbn [between_initialize_and_cleanup].
    destruct o; reflexivity.
Qed.

Lemma run_ops_app (ops1 ops2 : list Op) (s : AIService) :
  run_ops (ops1 ++ ops2) s = run_ops ops2 (run_ops ops1 s).
Proof. unfold run_ops. apply fold_left_app. Qed.

(** Without a call of [initialize] a service that is not ready stays so. *)
Lemma not_ready_without_initialize (ops : list Op) (s : AIService) :
  forallb (fun o => negb (is_OpInitialize o)) ops = true ->
  between_initialize_and_cleanup ops s false = false.
Proof.
  revert s. induction ops as [|o ops IH]; intros s H; simpl in *.
  - reflexivity.
  - apply andb_prop in H as [Ho H].
    destruct o; simpl in *; try discriminate; apply IH; exact H.
Qed.

Lemma load_error_propagates (env : LoadEnv) (s : AIService) (e : exn) :
  executor_shutdown s = false ->
  snd (_load_model env (set_device (chosen_device env) s)) = Raise e ->
  snd (initialize env s) = Raise e.
Proof.
  intros Hx. rewrite initialize_unfold. unfold _load_model. run_m.
  rewrite Hx.
  destruct (tokenizer_from_pretrained env) as [tok|e1]; simpl.
  2: destruct (isinstance_Exception e1); simpl; trivial.
  destruct (model_from_pretrained env) as [m|e1]; simpl.
  2: destruct (isinstance_Exception e1); simpl; trivial.
  destruct (new_pipeline env m tok) as [p|e1]; simpl.
  2: destruct (isinstance_Exception e1); simpl; trivial.
  discriminate.
Qed.

Lemma lifespan_startup_eq (env : LoadEnv) :
  lifespan_startup env = initialize env new_AIService.
Proof.
  unfold lifespan_startup, try_except, raise.
  destruct (initialize env new_AIService) as [s [u|e]]; [reflexivity|].
  destruct (isinstance_Exception e); reflexivity.
Qed.

(** C3: [is_ready()] is false on a new service object and in every state
    that the first [initialize()] passes through before it completes;
    after any sequence of calls on the object it is true exactly when some
    [initialize()] returned without raising and no [cleanup()] was called
    since, hence false after every [cleanup()]; and when the loading of
    the resource raises during [initialize()], that same exception leaves
    [initialize()] and the start-up of the application, and [is_ready()]
    is false after any further calls that are not a new [initialize()]:
    nothing retries the loading. *)
Theorem is_ready_lifecycle :
  snd (is_ready new_AIService) = Return false /\
  (forall env s,
     In s (initialize_states env new_AIService) ->
     snd (is_ready s) = Return false) /\
  (forall ops,
     snd (is_ready (run_ops ops new_AIService))
     = Return (between_initialize_and_cleanup ops new_AIService false)) /\
  (forall ops cuda,
     snd (is_ready (run_ops (ops ++ [OpCleanup cuda]) new_AIService))
     = Return false) /\
  (forall env e,
     snd (_load_model env (set_device (chosen_device env) new_AIService))
     = Raise e ->
     snd (initialize env new_AIService) = Raise e /\
     snd (lifespan_startup env) = Raise e /\
     forall ops,
       forallb (fun o => negb (is_OpInitialize o)) ops = true ->
       snd (is_ready (run_ops ops (fst (initialize env new_AIService))))
       = Return false).
Proof.
  assert (Hall : forall ops,
     snd (is_ready (run_ops ops new_AIService))
     = Return (between_initialize_and_cleanup ops new_AIService false)).
  { intros ops. destruct (run_ops_consistent ops consistent_new) as [Hc Hr].
    rewrite (consistent_is_ready Hc), Hr. reflexivity. }
  split; [reflexivity|]. split; [|split; [exact Hall|split]].
  - intros env s Hin. apply is_ready_not_ready_flag.
    rewrite (@initialize_states_ready_flag _ _ _ Hin). reflexivity.
  - intros ops cuda. rewrite run_ops_app.
    destruct (run_ops_consistent ops consistent_new) as [Hc _].
    destruct (cleanup_consistent cuda Hc) as [Hc' Hr'].
    change (run_ops [OpCleanup cuda] (run_ops ops new_AIService))
      with (fst (cleanup cuda (run_ops ops new_AIService))).
    rewrite (consistent_is_ready Hc'), Hr'. reflexivity.
  - intros env e Hload.
    assert (Hi : snd (initialize env new_AIService) = Raise e).
    { apply load_error_propagates; [reflexivity|exact Hload]. }
    split; [exact Hi|]. split; [rewrite lifespan_startup_eq; exact Hi|].
    intros ops Hops.
    change (run_ops ops (fst (initialize env new_AIService)))
      with (run_ops (OpInitialize env :: ops) new_AIService).
    rewrite Hall. cbn [between_initialize_and_cleanup run_op fst snd].
    rewrite Hi. cbn [is_raise].
    rewrite (@not_ready_without_initialize _ _ Hops). reflexivity.
Qed.

Lemma is_ready_lifecycle_witness :
  snd (is_ready
         (run_ops [OpIsReady;
                   OpGenerate 0 (lit "Osmosis") None None None None;
                   OpCleanup true;
                   OpGenerate 1 (lit "Osmosis") None None None None]
            (fst (initialize out_of_memory_env new_AIService))))
  = Return false.
Proof.
  apply (proj2 (proj2 (proj2 (proj2 is_ready_lifecycle)))
           out_of_memory_env
           (OtherException (lit "OutOfMemoryError")
              (lit "CUDA out of memory")));
    reflexivity.
Defined.

Example ready_after_initialize :
  snd (is_ready (ready_service answering_pipeline)) = Return true.
Proof. reflexivity. Qed.

Example not_ready_after_cleanup :
  snd (is_ready
         (run_ops [OpInitialize (loading_env answering_pipeline);
                   OpCleanup false] new_AIService))
  = Return false.
Proof. reflexivity. Qed.

Example initialize_after_cleanup_raises :
  snd (initialize (loading_env answering_pipeline)
         (run_ops [OpInitialize (loading_env answering_pipeline);
                   OpCleanup false] new_AIService))
  = Raise (RuntimeError (lit "cannot schedule new futures after shutdown")).
Proof. reflexivity. Qed.

Example second_cleanup_raises :
  snd (cleanup false
         (run_ops [OpInitialize (loading_env answering_pipeline);
                   OpCleanup false] new_AIService))
  = Raise (AttributeError
             (lit "'AIService' object has no attribute 'model'")).
Proof. reflexivity. Qed.

(** ** Cleanup of a service that never became ready *)

Lemma initialize_new_bound (env : LoadEnv) :
  let s := fst (initialize env new_AIService) in
  model s <> Deleted /\ tokenizer s <> Deleted /\ pipeline s <> Deleted.
Proof.
  rewrite initialize_unfold. simpl.
  destruct (tokenizer_from_pretrained env) as [tok|e]; simpl.
  2: repeat split; discriminate.
  destruct (model_from_pretrained env) as [m|e]; simpl.
  2: repeat split; discriminate.
  destruct (new_pipeline env m tok) as [p|e]; simpl;
    repeat split; discriminate.
Qed.

(** C9: on a service whose [model], [tokenizer] and [pipeline] are still
    [None], [cleanup()] returns without raising; it shuts the executor
    down and writes the ready flag, and leaves every other attribute as it
    was; [is_ready()] is false afterwards.  After an [initialize()] that
    raised on a new service, whatever part of the loading had been done,
    [cleanup()] returns without raising too and [is_ready()] is false. *)
Theorem cleanup_without_initialize_does_not_fault :
  (forall cuda s,
     model s = Bound None -> tokenizer s = Bound None ->
     pipeline s = Bound None ->
     cleanup cuda s
     = (set_ready false (set_executor_shutdown true s), Return tt) /\
     snd (is_ready (fst (cleanup cuda s))) = Return false) /\
  (forall env cuda e,
     snd (initialize env new_AIService) = Raise e ->
     snd (cleanup cuda (fst (initialize env new_AIService))) = Return tt /\
     snd (is_ready (fst (cleanup cuda (fst (initialize env new_AIService)))))
     = Return false).
Proof.
  split.
  - intros cuda s Hm Ht Hp.
    assert (Hc : cleanup cuda s
                 = (set_ready false (set_executor_shutdown true s), Return tt)).
    { unfold cleanup, del_if_truthy. run_m.
      destruct s as [m t p d x r c]; simpl in *. subst.
      destruct cuda; reflexivity. }
    split; [exact Hc|]. rewrite Hc. apply is_ready_not_ready_flag.
    reflexivity.
  - intros env cuda e _.
    destruct (initialize_new_bound env) as [Hm [Ht Hp]].
    split; [apply cleanup_bound_returns; assumption|].
    destruct (initialize_consistent env consistent_new) as [Hc _].
    destruct (cleanup_consistent cuda Hc) as [Hc' Hr].
    rewrite (consistent_is_ready Hc'), Hr. reflexivity.
Qed.

Lemma cleanup_without_initialize_witness :
  cleanup true new_AIService
  = (set_ready false (set_executor_shutdown true new_AIService), Return tt)
  /\
  snd (cleanup true (fst (initialize out_of_memory_env new_AIService)))
  = Return tt.
Proof.
  split.
  - apply (proj1 cleanup_without_initialize_does_not_fault true new_AIService);
      reflexivity.
  - apply (proj2 cleanup_without_initialize_does_not_fault out_of_memory_env
             true (OtherException (lit "OutOfMemoryError")
                     (lit "CUDA out of memory"))).
    reflexivity.
Defined.

(** ** Generation on a ready service *)

(** [generate_text] on a ready service, case by case. *)
Lemma generate_text_ready (seed : nat) (p : pystr) (ml : option Z)
  (te tp : option float) (cx : option pystr) (s : AIService)
  (pl : Pipeline) :
  _ready s = true -> pipeline s = Bound (Some pl) ->
  generate_text seed p ml te tp cx s =
  let ps := effective_parameters ml te tp in
  if executor_shutdown s then
    (s, Raise (RuntimeError
                 (lit "cannot schedule new futures after shutdown")))
  else
    match tokenizer s with
    | Deleted =>
        (s, Raise (AttributeError
                     (lit "'AIService' object has no attribute '"
                      ++ lit "tokenizer" ++ lit "'")))
    | Bound None =>
        (s, Raise (AttributeError
                     (lit "'NoneType' object has no attribute 'eos_token_id'")))
    | Bound (Some tok) =>
        let c := pipeline_args (_prepare_prompt p cx) (p_max_length ps)
                   (p_temperature ps) (p_top_p ps) tok in
        match run_pipeline pl seed c with
        | Raise e => (log_call c s, Raise e)
        | Return [] =>
            (log_call c s, Raise (IndexError (lit "list index out of range")))
        | Return (g :: _) =>
            (log_call c s,
             Return {| res_generated_text := strip g;
                       res_prompt := p;
                       res_context := cx;
                       res_parameters := ps |})
        end
    end.
Proof.
  intros Hr Hp.
  unfold generate_text, is_ready, _generate_text_sync, call_pipeline.
  destruct s as [m t q d x r c]. simpl in Hr, Hp. subst r q.
  unfold effective_parameters. run_m.
  destruct x; [reflexivity|].
  destruct t as [|[tok|]]; try reflexivity. simpl.
  destruct (run_pipeline pl seed _) as [[|g gs]|e]; simpl; try reflexivity.
  destruct (isinstance_Exception e) eqn:E; simpl; rewrite ?E; reflexivity.
Qed.

Lemma success_call_raises (g p c : option pystr) (t : option ContentType)
  (ps : option Parameters) (pt : option float) :
  new_GenerateResponse (Passed true) (Passed g) (Passed p) (Passed c)
    (Passed t) (Passed ps) Omitted (Passed pt)
  = Raise success_call_error.
Proof. reflexivity. Qed.

Lemma failure_call_raises (p c : option pystr) (t : option ContentType)
  (e pt : option pystr) (time : option float) :
  new_GenerateResponse (Passed false) Omitted (Passed p) (Passed c)
    (Passed t) Omitted (Passed e) (Passed time)
  = Raise failure_call_error.
Proof. reflexivity. Qed.

(** [generate_content] on a ready service follows [generate_text], and
    both constructor calls raise. *)
Lemma generate_content_ready (clock : Clock) (seed : nat)
  (request : GenerateRequest) (s : AIService) :
  snd (is_ready s) = Return true ->
  generate_content clock seed request s =
  match generate_text seed
          (_enhance_prompt_by_type (req_prompt request)
             (pyobj_of_content_type (req_content_type request)))
          (req_max_length request) (req_temperature request)
          (req_top_p request) (req_context request) s with
  | (s', Return result) => (s', Raise failure_call_error)
  | (s', Raise e) =>
      if isinstance_HTTPException e then (s', Raise e)
      else if isinstance_Exception e then (s', Raise failure_call_error)
      else (s', Raise e)
  end.
Proof.
  intros H. apply is_ready_eq in H.
  unfold generate_content, try_except_http, bind, lift. rewrite H.
  cbn [negb].
  destruct (generate_text _ _ _ _ _ _ s) as [s' [r|e]]; [reflexivity|].
  destruct (isinstance_HTTPException e); [reflexivity|].
  destruct (isinstance_Exception e); reflexivity.
Qed.

(** C5, as the code behaves: for a request that passed validation on a
    ready service, when the generation raises an exception that
    [except Exception] catches, the handler does not return a response
    with [success = false]: the call that builds it leaves out the
    required fields [generated_text] and [parameters], so it raises a
    validation error inside the except clause; that error leaves the
    handler and the route answers with it unhandled. *)
Theorem generation_failure_is_not_converted (clock : Clock) (seed : nat)
  (raw : RawRequest) (request : GenerateRequest) (s s' : AIService)
  (e : exn) :
  validate_request raw = Return request ->
  snd (is_ready s) = Return true ->
  generate_text seed
    (_enhance_prompt_by_type (req_prompt request)
       (pyobj_of_content_type (req_content_type request)))
    (req_max_length request) (req_temperature request)
    (req_top_p request) (req_context request) s = (s', Raise e) ->
  plain_exception e = true ->
  generate_content clock seed request s = (s', Raise failure_call_error) /\
  post_generate clock seed raw (Some s)
  = (Some s', Unhandled failure_call_error) /\
  (forall body, generate_content clock seed request s <> (s', Return body)).
Proof.
  intros Hv Hr Hg He.
  assert (Hh : generate_content clock seed request s
               = (s', Raise failure_call_error)).
  { rewrite (generate_content_ready clock seed request s Hr), Hg.
    unfold plain_exception in He. apply andb_prop in He as [He1 He2].
    apply negb_true_iff in He2. rewrite He1, He2. reflexivity. }
  split; [exact Hh|]. split.
  - unfold post_generate. rewrite Hv, Hh. reflexivity.
  - intros body. rewrite Hh. discriminate.
Qed.

Lemma generation_failure_witness :
  snd (post_generate sample_clock 0 photosynthesis_body
         (Some (ready_service exhausted_pipeline)))
  = Unhandled failure_call_error.
Proof.
  rewrite (proj1 (proj2
    (@generation_failure_is_not_converted sample_clock 0
       photosynthesis_body photosynthesis_request
       (ready_service exhausted_pipeline)
       (fst (generate_content sample_clock 0 photosynthesis_request
               (ready_service exhausted_pipeline)))
       (RuntimeError (lit "CUDA out of memory"))
       eq_refl eq_refl ltac:(vm_compute; reflexivity) eq_refl))).
  reflexivity.
Defined.

(** ** No response body *)

Lemma generate_content_raises (clock : Clock) (seed : nat)
  (request : GenerateRequest) (s : AIService) :
  exists s' e, generate_content clock seed request s = (s', Raise e).
Proof.
  unfold generate_content, try_except_http, bind, lift, raise.
  destruct (is_ready s) as [s1 [[|]|e]]; cbn [negb].
  - destruct (generate_text _ _ _ _ _ _ s1) as [s2 [r|e]].
    + eexists. eexists. reflexivity.
    + destruct (isinstance_HTTPException e);
        [eexists; eexists; reflexivity|].
      destruct (isinstance_Exception e); eexists; eexists; reflexivity.
  - eexists. eexists. reflexivity.
  - destruct (isinstance_HTTPException e);
      [eexists; eexists; reflexivity|].
    destruct (isinstance_Exception e); eexists; eexists; reflexivity.
Qed.

(** C6, as the code behaves: the handler never returns a response, so
    no prompt and no content type is echoed.  Whatever the request and
    the state of the service, [generate_content] raises, and the route
    never answers with a body; the body with prompt "Photosynthesis" and
    content type "definition" is answered, on a ready service, with the
    unhandled validation error of the response constructor, when the
    generation returns a text and when it raises alike. *)
Theorem no_response_echoes_the_request :
  (forall clock seed request s,
     exists s' e, generate_content clock seed request s = (s', Raise e)) /\
  (forall clock seed raw app app' body,
     post_generate clock seed raw app <> (app', Ok200 body)) /\
  (forall clock seed,
     snd (post_generate clock seed photosynthesis_body
            (Some (ready_service answering_pipeline)))
     = Unhandled failure_call_error /\
     snd (post_generate clock seed photosynthesis_body
            (Some (ready_service exhausted_pipeline)))
     = Unhandled failure_call_error).
Proof.
  split; [exact generate_content_raises|]. split.
  - intros clock seed raw app app' body. unfold post_generate.
    destruct app as [s|]; [|discriminate].
    destruct (validate_request raw) as [request|e]; [|discriminate].
    destruct (generate_content_raises clock seed request s) as [s' [e H]].
    rewrite H. destruct e; discriminate.
  - intros clock seed. split; reflexivity.
Qed.

(** ** Effective parameters *)

Lemma ge_tenth_truthy (x : float) :
  PrimFloat.leb 0.1 x = true -> truthy_float x = true.
Proof.
  unfold truthy_float. rewrite leb_spec, eqb_spec.
  destruct (Prim2SF x) as [sg|sg| |sg m e]; vm_compute; try congruence.
  all: destruct sg; congruence.
Qed.

Lemma check_int_given (lo hi : Z) (f : field Z) (x : Z) :
  check_int lo hi f = Return (Some x) -> (lo <= x <= hi)%Z.
Proof.
  destruct f as [| |y]; simpl; try discriminate.
  destruct ((lo <=? y)%Z && (y <=? hi)%Z)%bool eqn:E; [|discriminate].
  intros H. injection H as <-. apply andb_prop in E as [E1 E2]. lia.
Qed.

Lemma check_float_given (lo hi : float) (f : field float) (x : float) :
  check_float lo hi f = Return (Some x) ->
  PrimFloat.leb lo x = true /\ PrimFloat.leb x hi = true.
Proof.
  destruct f as [| |y]; simpl; try discriminate.
  destruct (PrimFloat.leb lo y && PrimFloat.leb y hi)%bool eqn:E;
    [|discriminate].
  intros H. injection H as <-. apply andb_prop in E. exact E.
Qed.

Lemma validate_request_numbers (raw : RawRequest) (req : GenerateRequest) :
  validate_request raw = Return req ->
  check_int 50 1000 (raw_max_length raw) = Return (req_max_length req) /\
  check_float 0.1 2.0 (raw_temperature raw) = Return (req_temperature req) /\
  check_float 0.1 1.0 (raw_top_p raw) = Return (req_top_p req).
Proof.
  unfold validate_request. intros H.
  repeat (apply bind_result_Return in H as [? [? H]]).
  injection H as <-. simpl. auto.
Qed.

Lemma or_int_valid (f : field Z) (v : option Z) :
  check_int 50 1000 f = Return v ->
  or_int v 512 = supplied_or_default v 512%Z /\
  (50 <=? supplied_or_default v 512%Z)%Z = true /\
  (supplied_or_default v 512%Z <=? 1000)%Z = true.
Proof.
  destruct v as [x|]; [|intros _; repeat split].
  intros H. apply check_int_given in H. simpl.
  assert (Hz : truthy_int x = true)
    by (unfold truthy_int; apply negb_true_iff, Z.eqb_neq; lia).
  rewrite Hz. repeat split; apply Z.leb_le; lia.
Qed.

Lemma or_float_valid (hi d : float) (f : field float) (v : option float) :
  check_float 0.1 hi f = Return v ->
  PrimFloat.leb 0.1 d = true -> PrimFloat.leb d hi = true ->
  or_float v d = supplied_or_default v d /\
  PrimFloat.leb 0.1 (supplied_or_default v d) = true /\
  PrimFloat.leb (supplied_or_default v d) hi = true.
Proof.
  destruct v as [x|]; [|intros _ Hlo Hhi; repeat split; assumption].
  intros H _ _. apply check_float_given in H as [Hlo Hhi]. simpl.
  rewrite (@ge_tenth_truthy x Hlo). repeat split; assumption.
Qed.

(** On a validated request [or] and the absence test agree, and the
    outcome is within the bounds. *)
Lemma valid_request_parameters (raw : RawRequest) (req : GenerateRequest) :
  validate_request raw = Return req ->
  effective_parameters (req_max_length req) (req_temperature req)
    (req_top_p req) = specified_parameters req /\
  within_bounds (specified_parameters req) = true.
Proof.
  intros H. apply validate_request_numbers in H as [Hm [Ht Hp]].
  apply or_int_valid in Hm as [Em [Hm1 Hm2]].
  apply (@or_float_valid 2.0 0.7) in Ht as [Et [Ht1 Ht2]];
    [|reflexivity|reflexivity].
  apply (@or_float_valid 1.0 0.9) in Hp as [Ep [Hp1 Hp2]];
    [|reflexivity|reflexivity].
  unfold effective_parameters, specified_parameters, within_bounds.
  cbn [p_max_length p_temperature p_top_p Config.max_length
       Config.temperature Config.top_p Config.settings].
  rewrite Em, Et, Ep, Hm1, Hm2, Ht1, Ht2, Hp1, Hp2.
  split; reflexivity.
Qed.

(** What a returning [generate_text] did. *)
Lemma generate_text_returns (seed : nat) (p : pystr) (ml : option Z)
  (te tp : option float) (cx : option pystr) (s s' : AIService)
  (r : GenerationResult) :
  generate_text seed p ml te tp cx s = (s', Return r) ->
  let ps := effective_parameters ml te tp in
  res_parameters r = ps /\ res_prompt r = p /\ res_context r = cx /\
  exists tok,
    tokenizer s = Bound (Some tok) /\
    s' = log_call (pipeline_args (_prepare_prompt p cx) (p_max_length ps)
                     (p_temperature ps) (p_top_p ps) tok) s.
Proof.
  intros H.
  assert (Hr : snd (is_ready s) = Return true).
  { unfold generate_text, bind, raise in H.
    destruct (is_ready s) as [s1 [[|]|e]]; simpl in *;
      [reflexivity|discriminate|discriminate]. }
  apply is_ready_true in Hr as [Hf [pl Hp]].
  rewrite (generate_text_ready seed p ml te tp cx s Hf Hp) in H.
  simpl in H. destruct (executor_shutdown s); [discriminate|].
  destruct (tokenizer s) as [|[tok|]]; try discriminate.
  destruct (run_pipeline pl seed _) as [[|g gs]|e]; try discriminate.
  injection H as <- <-. simpl. repeat split. exists tok. split; reflexivity.
Qed.

(** The calls recorded by one [generate_text]: none, or one that
    carries the prompt and the effective parameters. *)
Lemma generate_text_calls (seed : nat) (p : pystr) (ml : option Z)
  (te tp : option float) (cx : option pystr) (s : AIService) :
  let s' := fst (generate_text seed p ml te tp cx s) in
  calls s' = calls s \/
  exists c,
    calls s' = calls s ++ [c] /\
    call_prompt c = _prepare_prompt p cx /\
    call_max_length c = or_int ml 512 /\
    call_temperature c = or_float te 0.7 /\
    call_top_p c = or_float tp 0.9.
Proof.
  simpl.
  assert (Hcase : snd (is_ready s) = Return true \/
                  fst (generate_text seed p ml te tp cx s) = s).
  { unfold generate_text, bind, raise. pose proof (is_ready_state s) as Hs.
    destruct (is_ready s) as [s1 [[|]|e]]; simpl in *; subst s1; auto. }
  destruct Hcase as [Hr|Hs]; [|left; rewrite Hs; reflexivity].
  apply is_ready_true in Hr as [Hf [pl Hp]].
  rewrite (generate_text_ready seed p ml te tp cx s Hf Hp). simpl.
  destruct (executor_shutdown s); [left; reflexivity|].
  destruct (tokenizer s) as [|[tok|]]; try (left; reflexivity).
  right. eexists.
  destruct (run_pipeline pl seed _) as [[|g gs]|e]; simpl;
    (split; [reflexivity|repeat split]).
Qed.

(** C2: for a request that passed validation, the effective parameters
    are the caller's values where present and 512, 0.7 and 0.9 where
    absent, and they lie within the bounds: max_length in [50, 1000],
    temperature in [0.1, 2.0], top_p in [0.1, 1.0].  They are the
    parameters that the result of [generate_text] reports, and the
    max_length, temperature and top_p of the call that [generate_text],
    and the handler of the route through it, makes to the pipeline. *)
Theorem effective_parameters_of_valid_request (raw : RawRequest)
  (request : GenerateRequest) :
  validate_request raw = Return request ->
  within_bounds (specified_parameters request) = true /\
  (forall seed p cx s s' result,
     generate_text seed p (req_max_length request) (req_temperature request)
       (req_top_p request) cx s = (s', Return result) ->
     res_parameters result = specified_parameters request /\
     within_bounds (res_parameters result) = true /\
     exists c,
       calls s' = calls s ++ [c] /\
       call_max_length c = supplied_or_default (req_max_length request) 512%Z /\
       call_temperature c
       = supplied_or_default (req_temperature request) 0.7%float /\
       call_top_p c = supplied_or_default (req_top_p request) 0.9%float) /\
  (forall seed p cx s,
     let s' := fst (generate_text seed p (req_max_length request)
                      (req_temperature request) (req_top_p request) cx s) in
     calls s' = calls s \/
     exists c,
       calls s' = calls s ++ [c] /\
       call_max_length c = supplied_or_default (req_max_length request) 512%Z /\
       call_temperature c
       = supplied_or_default (req_temperature request) 0.7%float /\
       call_top_p c = supplied_or_default (req_top_p request) 0.9%float) /\
  (forall clock seed s,
     let s' := fst (generate_content clock seed request s) in
     calls s' = calls s \/
     exists c,
       calls s' = calls s ++ [c] /\
       call_max_length c = supplied_or_default (req_max_length request) 512%Z /\
       call_temperature c
       = supplied_or_default (req_temperature request) 0.7%float /\
       call_top_p c = supplied_or_default (req_top_p request) 0.9%float).
Proof.
  intros Hv. destruct (@valid_request_parameters raw request Hv) as [Heq Hb].
  assert (Hm : or_int (req_max_length request) 512
               = supplied_or_default (req_max_length request) 512%Z)
    by exact (f_equal p_max_length Heq).
  assert (Ht : or_float (req_temperature request) 0.7
               = supplied_or_default (req_temperature request) 0.7%float)
    by exact (f_equal p_temperature Heq).
  assert (Hp : or_float (req_top_p request) 0.9
               = supplied_or_default (req_top_p request) 0.9%float)
    by exact (f_equal p_top_p Heq).
  assert (Hcalls : forall seed p cx s,
     let s' := fst (generate_text seed p (req_max_length request)
                      (req_temperature request) (req_top_p request) cx s) in
     calls s' = calls s \/
     exists c,
       calls s' = calls s ++ [c] /\
       call_max_length c = supplied_or_default (req_max_length request) 512%Z /\
       call_temperature c
       = supplied_or_default (req_temperature request) 0.7%float /\
       call_top_p c = supplied_or_default (req_top_p request) 0.9%float).
  { intros seed p cx s.
    destruct (generate_text_calls seed p (req_max_length request)
                (req_temperature request) (req_top_p request) cx s)
      as [H|[c [Hc [_ [H1 [H2 H3]]]]]]; [left; exact H|].
    right. exists c. rewrite <- Hm, <- Ht, <- Hp. auto. }
  split; [exact Hb|]. split; [|split; [exact Hcalls|]].
  - intros seed p cx s s' result H.
    apply generate_text_returns in H as [Hps [_ [_ [tok [_ Hs]]]]].
    split; [rewrite Hps; exact Heq|].
    split; [rewrite Hps, Heq; exact Hb|].
    eexists. split; [rewrite Hs; reflexivity|].
    cbn [call_max_length call_temperature call_top_p pipeline_args
         p_max_length p_temperature p_top_p effective_parameters].
    auto.
  - intros clock seed s. simpl.
    pose proof (is_ready_state s) as Hs.
    unfold generate_content, try_except_http, bind, lift, raise.
    destruct (is_ready s) as [s1 [[|]|e]]; simpl in Hs; subst s1;
      cbn [negb].
    + pose proof (Hcalls seed
                    (_enhance_prompt_by_type (req_prompt request)
                       (pyobj_of_content_type (req_content_type request)))
                    (req_context request) s) as Hc.
      simpl in Hc.
      destruct (generate_text _ _ _ _ _ _ s) as [s2 [r|e]]; simpl in *.
      * exact Hc.
      * destruct (isinstance_HTTPException e); [exact Hc|].
        destruct (isinstance_Exception e); exact Hc.
    + left. reflexivity.
    + left. destruct (isinstance_HTTPException e); [reflexivity|].
      destruct (isinstance_Exception e); reflexivity.
Qed.

Lemma effective_parameters_witness :
  exists s' result c,
    generate_text 0 (lit "Osmosis") (Some 200%Z) (Some 1.5%float) None None
      (ready_service answering_pipeline) = (s', Return result) /\
    calls s' = [c] /\
    call_max_length c = 200%Z /\ call_temperature c = 1.5%float /\
    call_top_p c = 0.9%float.
Proof.
  destruct (generate_text 0 (lit "Osmosis") (Some 200%Z) (Some 1.5%float)
              None None (ready_service answering_pipeline))
    as [s' [result|e]] eqn:E; [|vm_compute in E; discriminate E].
  destruct (proj1 (proj2 (@effective_parameters_of_valid_request padded_body
                            padded_request eq_refl))
              0%nat (lit "Osmosis") None
              (ready_service answering_pipeline) s' result E)
    as [_ [_ [c [Hc [H1 [H2 H3]]]]]].
  exists s', result, c. split; [reflexivity|].
  split; [exact Hc|]. split; [exact H1|]. split; [exact H2|exact H3].
Defined.

Example given_parameters_are_used :
  forall request,
    validate_request padded_body = Return request ->
    specified_parameters request
    = {| p_max_length := 200; p_temperature := 1.5; p_top_p := 0.9 |}.
Proof. intros request H. vm_compute in H. injection H as <-. reflexivity. Qed.

(** ** Falsy values given to [generate_text] *)

(** C10: [generate_text] called with [max_length=0], with
    [temperature=0.0] or with [top_p=0.0] does exactly what it does when
    that argument is [None].  Called with all three, the call that it
    makes to the pipeline, whether the generation then returns or raises,
    has max_length 512, temperature 0.7 and top_p 0.9; and when it
    returns, the parameters of the result are 512, 0.7 and 0.9. *)
Theorem falsy_parameter_is_defaulted (seed : nat) (p : pystr)
  (cx : option pystr) (s : AIService) :
  (forall te tp,
     generate_text seed p (Some 0%Z) te tp cx s
     = generate_text seed p None te tp cx s) /\
  (forall ml tp,
     generate_text seed p ml (Some 0%float) tp cx s
     = generate_text seed p ml None tp cx s) /\
  (forall ml te,
     generate_text seed p ml te (Some 0%float) cx s
     = generate_text seed p ml te None cx s) /\
  (forall s' result,
     generate_text seed p (Some 0%Z) (Some 0%float) (Some 0%float) cx s
     = (s', Return result) ->
     res_parameters result
     = {| p_max_length := 512; p_temperature := 0.7; p_top_p := 0.9 |} /\
     exists tok c,
       s' = log_call c s /\
       c = pipeline_args (_prepare_prompt p cx) 512 0.7 0.9 tok /\
       calls s' = calls s ++ [c] /\
       call_prompt c = _prepare_prompt p cx /\
       call_max_length c = 512%Z /\
       call_temperature c = 0.7%float /\
       call_top_p c = 0.9%float) /\
  (let s' := fst (generate_text seed p (Some 0%Z) (Some 0%float)
                    (Some 0%float) cx s) in
   calls s' = calls s \/
   exists c,
     calls s' = calls s ++ [c] /\
     call_prompt c = _prepare_prompt p cx /\
     call_max_length c = 512%Z /\
     call_temperature c = 0.7%float /\
     call_top_p c = 0.9%float).
Proof.
  split; [|split; [|split; [|split]]].
  - intros te tp. reflexivity.
  - intros ml tp. reflexivity.
  - intros ml te. reflexivity.
  - intros s' result H.
    apply generate_text_returns in H as [Hp [_ [_ [tok [_ Hs]]]]].
    split; [exact Hp|]. exists tok. eexists. split; [exact Hs|].
    split; [reflexivity|]. rewrite Hs. repeat split.
  - exact (generate_text_calls seed p (Some 0%Z) (Some 0%float)
             (Some 0%float) cx s).
Qed.

Lemma falsy_parameter_witness :
  exists s' result c,
    generate_text 0 (lit "Photosynthesis") (Some 0%Z) (Some 0%float)
      (Some 0%float) None (ready_service answering_pipeline)
    = (s', Return result) /\
    res_parameters result
    = {| p_max_length := 512; p_temperature := 0.7; p_top_p := 0.9 |} /\
    calls s' = [c] /\
    call_max_length c = 512%Z /\ call_temperature c = 0.7%float /\
    call_top_p c = 0.9%float.
Proof.
  destruct (generate_text 0 (lit "Photosynthesis") (Some 0%Z) (Some 0%float)
              (Some 0%float) None (ready_service answering_pipeline))
    as [s' [result|e]] eqn:E; [|vm_compute in E; discriminate E].
  destruct (proj1 (proj2 (proj2 (proj2
              (falsy_parameter_is_defaulted 0 (lit "Photosynthesis") None
                 (ready_service answering_pipeline))))) s' result E)
    as [Hp [tok [c [_ [_ [Hc [_ [H1 [H2 H3]]]]]]]]].
  exists s', result, c. split; [reflexivity|]. split; [exact Hp|].
  split; [exact Hc|]. split; [exact H1|]. split; [exact H2|exact H3].
Defined.

Example negative_zero_is_defaulted :
  or_float (Some (-0)%float) 0.7 = 0.7%float.
Proof. reflexivity. Qed.

Example direct_call_out_of_bounds_is_kept :
  effective_parameters (Some 5000%Z) (Some 9%float) None
  = {| p_max_length := 5000; p_temperature := 9; p_top_p := 0.9 |}.
Proof. reflexivity. Qed.

(** ** Enhancement of the prompt by content type *)

Lemma explanation_is_the_default :
  dict_item type_instructions EXPLANATION
  = lit "Provide a clear, detailed explanation of the following topic. Include examples and break down complex concepts into understandable parts:".
Proof. reflexivity. Qed.

Lemma unrecognized_not_found (k : pyobj) :
  recognized k = false ->
  find (fun kv => key_eqb k (fst kv)) type_instructions = None.
Proof.
  unfold recognized, all_ContentType. cbn [existsb]. intros H.
  repeat (apply orb_false_elim in H as [? H]).
  unfold type_instructions. cbn [find fst].
  repeat match goal with
         | E : key_eqb k _ = false |- _ => rewrite E; clear E
         end.
  reflexivity.
Qed.

(** C8: a content type that equals none of the six members ([None], a
    string that is no member's value, any other object) does not make the
    enhancement fail: the result is the explanation instruction, a blank
    line and the prompt.  For each of the six members, and for the plain
    string of its value, the result is the instruction that
    [type_instructions] holds for that member, a blank line and the
    prompt; no member has two entries. *)
Theorem unknown_content_type_falls_back (p : pystr) :
  (forall k,
     recognized k = false ->
     _enhance_prompt_by_type p k
     = lit "Provide a clear, detailed explanation of the following topic. Include examples and break down complex concepts into understandable parts:"
       ++ nl ++ nl ++ p) /\
  (forall c,
     exists instruction,
       In (c, instruction) type_instructions /\
       _enhance_prompt_by_type p (PyMember c) = instruction ++ nl ++ nl ++ p /\
       _enhance_prompt_by_type p (PyStr (ContentType_value c))
       = instruction ++ nl ++ nl ++ p) /\
  map fst type_instructions = all_ContentType /\
  NoDup all_ContentType.
Proof.
  split; [|split; [|split]].
  - intros k Hk. unfold _enhance_prompt_by_type, dict_get at 1.
    rewrite (unrecognized_not_found k Hk), explanation_is_the_default.
    reflexivity.
  - intros c. destruct c; eexists; (split; [|split]).
    all: try (vm_compute; reflexivity).
    all: cbn [In type_instructions]; tauto.
  - reflexivity.
  - unfold all_ContentType.
    repeat (constructor; [cbn [In]; intuition discriminate|]).
    constructor.
Qed.

Lemma unknown_content_type_witness :
  _enhance_prompt_by_type (lit "Osmosis") PyNone
  = lit "Provide a clear, detailed explanation of the following topic. Include examples and break down complex concepts into understandable parts:"
    ++ nl ++ nl ++ lit "Osmosis"
  /\
  _enhance_prompt_by_type (lit "Osmosis") (PyStr (lit "poem"))
  = lit "Provide a clear, detailed explanation of the following topic. Include examples and break down complex concepts into understandable parts:"
    ++ nl ++ nl ++ lit "Osmosis".
Proof.
  split.
  - apply (proj1 (unknown_content_type_falls_back (lit "Osmosis")) PyNone).
    reflexivity.
  - apply (proj1 (unknown_content_type_falls_back (lit "Osmosis"))
             (PyStr (lit "poem"))).
    reflexivity.
Defined.

Example quiz_instruction_is_prepended :
  _enhance_prompt_by_type (lit "Osmosis") (PyMember QUIZ)
  = lit "Generate quiz questions and answers about the following topic. Include multiple choice, true/false, and short answer questions:"
    ++ nl ++ nl ++ lit "Osmosis".
Proof. reflexivity. Qed.

(** A body whose content type is an unknown string does not reach the
    enhancement: validation rejects it. *)
Example unknown_string_rejected_at_validation :
  check_content_type (Given (lit "poem"))
  = Raise (ValueError (lit "Input should be a valid content type")).
Proof. reflexivity. Qed.

(** A body whose content type is [null] passes validation, and the
    prompt given to the pipeline starts with the explanation
    instruction. *)
Example null_content_type_reaches_pipeline :
  map call_prompt
    (calls
       (serve
          (ServedGenerate sample_clock 0
             {| raw_prompt := Given (lit "Osmosis");
                raw_content_type := Null;
                raw_context := Absent; raw_max_length := Absent;
                raw_temperature := Absent; raw_top_p := Absent |})
          (ready_service answering_pipeline)))
  = [_prepare_prompt
       (dict_item type_instructions EXPLANATION ++ nl ++ nl
        ++ lit "Osmosis") None].
Proof. reflexivity. Qed.

(** ** One call at a time inside the pipeline *)

Unset Implicit Arguments.

Lemma update_length {A} (l : list A) (n : nat) (x : A) :
  List.length (Workers.update l n x) = List.length l.
Proof.
  revert n. induction l as [|a l IH]; intros [|n]; simpl; auto.
Qed.

Lemma nth_error_update_same {A} (l : list A) (n : nat) (x y : A) :
  nth_error l n = Some y -> nth_error (Workers.update l n x) n = Some x.
Proof.
  revert n. induction l as [|a l IH]; intros [|n]; simpl;
    try discriminate; auto.
Qed.

Lemma nth_error_update_other {A} (l : list A) (n m : nat) (x : A) :
  n <> m -> nth_error (Workers.update l n x) m = nth_error l m.
Proof.
  revert n m. induction l as [|a l IH]; intros [|n] [|m] H; simpl;
    try reflexivity; try congruence.
  apply IH. congruence.
Qed.

Lemma at_pc_true (st : Workers.state) (t : nat) (p : Workers.pc) :
  Workers.at_pc st t p = true -> nth_error (Workers.tasks st) t = Some p.
Proof.
  unfold Workers.at_pc.
  destruct (nth_error (Workers.tasks st) t) as [[]|]; destruct p;
    simpl; congruence.
Qed.

Lemma scan_snoc (es : list Workers.event) (e : Workers.event) :
  Workers.scan (es ++ [e]) = Workers.track (Workers.scan es) e.
Proof. unfold Workers.scan. rewrite fold_left_app. reflexivity. Qed.

Lemma invariant_init (n : nat) : Workers.invariant (Workers.init n).
Proof.
  split; simpl.
  - intros t p H Hp. apply nth_error_In, repeat_spec in H. subst p.
    discriminate.
  - exists None. split; [reflexivity|]. intros t. split; [|discriminate].
    intros H. apply nth_error_In, repeat_spec in H. discriminate.
Qed.

(** After task [t] moved from [old] to [new], where task [u] stands. *)
Lemma moved_task (l : list Workers.pc) (t u : nat) (old new p : Workers.pc) :
  nth_error l t = Some old ->
  nth_error (Workers.update l t new) u = Some p ->
  (u = t /\ p = new) \/ (u <> t /\ nth_error l u = Some p).
Proof.
  intros Ht Hu. destruct (Nat.eq_dec u t) as [->|Hne].
  - rewrite (nth_error_update_same l t new old Ht) in Hu. left.
    split; congruence.
  - right. split; [exact Hne|].
    rewrite nth_error_update_other in Hu; [exact Hu|congruence].
Qed.

Lemma step_invariant (a : Workers.action) (st st' : Workers.state) :
  Workers.invariant st -> Workers.step a st = Some st' ->
  Workers.invariant st'.
Proof.
  intros [Hlock [cur [Hscan Hcur]]] Hstep.
  destruct a as [t|t|t|t|t]; simpl in Hstep.
  - (* Start *)
    destruct (Workers.at_pc st t Workers.Queued) eqn:Hat;
      [|discriminate].
    destruct (Workers.busy st <? Workers.max_workers)%nat; [|discriminate].
    apply at_pc_true in Hat. injection Hstep as <-. split; simpl.
    + intros u p Hu Hp.
      destruct (moved_task _ _ _ _ _ _ Hat Hu) as [[-> ->]|[_ Hu']];
        [discriminate|eauto].
    + exists cur. split; [exact Hscan|]. intros u. rewrite <- Hcur. split.
      * intros Hu. destruct (moved_task _ _ _ _ _ _ Hat Hu) as [[_ E]|[_ Hu']];
          [discriminate|exact Hu'].
      * intros Hu. destruct (Nat.eq_dec u t) as [->|Hne]; [congruence|].
        rewrite nth_error_update_other; [exact Hu|congruence].
  - (* Acquire *)
    destruct (Workers.lock st) eqn:Hl; [discriminate|].
    destruct (Workers.at_pc st t Workers.AtLock) eqn:Hat; [|discriminate].
    apply at_pc_true in Hat. injection Hstep as <-. split; simpl.
    + intros u p Hu Hp.
      destruct (moved_task _ _ _ _ _ _ Hat Hu) as [[-> _]|[_ Hu']];
        [reflexivity|].
      specialize (Hlock u p Hu' Hp). congruence.
    + exists cur. split; [exact Hscan|]. intros u. rewrite <- Hcur. split.
      * intros Hu. destruct (moved_task _ _ _ _ _ _ Hat Hu) as [[_ E]|[_ Hu']];
          [discriminate|exact Hu'].
      * intros Hu. destruct (Nat.eq_dec u t) as [->|Hne]; [congruence|].
        rewrite nth_error_update_other; [exact Hu|congruence].
  - (* Call *)
    destruct (Workers.at_pc st t Workers.Holding) eqn:Hat; [|discriminate].
    apply at_pc_true in Hat. injection Hstep as <-.
    pose proof (Hlock t _ Hat eq_refl) as Hheld.
    assert (Hnone : cur = None).
    { destruct cur as [u|]; [|reflexivity].
      pose proof (proj2 (Hcur u) eq_refl) as Hu.
      pose proof (Hlock u _ Hu eq_refl) as Hu'. congruence. }
    subst cur. split; simpl.
    + intros u p Hu Hp.
      destruct (moved_task _ _ _ _ _ _ Hat Hu) as [[-> _]|[_ Hu']];
        [exact Hheld|eauto].
    + exists (Some t). split; [rewrite scan_snoc, Hscan; reflexivity|].
      intros u. split.
      * intros Hu. destruct (moved_task _ _ _ _ _ _ Hat Hu) as [[-> _]|[_ Hu']];
          [reflexivity|].
        apply Hcur in Hu'. discriminate.
      * intros E. injection E as <-.
        exact (nth_error_update_same _ _ _ _ Hat).
  - (* Finish *)
    destruct (Workers.at_pc st t Workers.InPipeline) eqn:Hat;
      [|discriminate].
    apply at_pc_true in Hat. injection Hstep as <-.
    pose proof (proj1 (Hcur t) Hat) as Ht. subst cur. split; simpl.
    + intros u p Hu Hp.
      destruct (moved_task _ _ _ _ _ _ Hat Hu) as [[-> _]|[_ Hu']]; eauto.
    + exists None. split.
      * rewrite scan_snoc, Hscan. simpl. rewrite Nat.eqb_refl. reflexivity.
      * intros u. split; [|discriminate]. intros Hu.
        destruct (moved_task _ _ _ _ _ _ Hat Hu) as [[_ E]|[Hne Hu']];
          [discriminate|].
        apply Hcur in Hu'. congruence.
  - (* Release *)
    destruct (Workers.at_pc st t Workers.AfterCall) eqn:Hat;
      [|discriminate].
    apply at_pc_true in Hat. injection Hstep as <-.
    pose proof (Hlock t _ Hat eq_refl) as Hheld. split; simpl.
    + intros u p Hu Hp.
      destruct (moved_task _ _ _ _ _ _ Hat Hu) as [[-> ->]|[Hne Hu']];
        [discriminate|].
      specialize (Hlock u p Hu' Hp). congruence.
    + exists cur. split; [exact Hscan|]. intros u. rewrite <- Hcur. split.
      * intros Hu. destruct (moved_task _ _ _ _ _ _ Hat Hu) as [[_ E]|[_ Hu']];
          [discriminate|exact Hu'].
      * intros Hu. destruct (Nat.eq_dec u t) as [->|Hne]; [congruence|].
        rewrite nth_error_update_other; [exact Hu|congruence].
Qed.

Lemma run_invariant (sched : list Workers.action) (st st' : Workers.state) :
  Workers.invariant st -> Workers.run sched st = Some st' ->
  Workers.invariant st'.
Proof.
  revert st. induction sched as [|a sched IH]; intros st Hinv; simpl.
  - intros H. injection H as <-. exact Hinv.
  - destruct (Workers.step a st) as [st1|] eqn:Hstep; [|discriminate].
    apply IH. exact (step_invariant a st st1 Hinv Hstep).
Qed.

(** C4: whatever number of [_generate_text_sync] calls is submitted to
    the executor and however the steps of the workers interleave, in
    every state that is reached at most one call is inside
    [self.pipeline]; a call that is inside the pipeline holds
    [self._lock], which it took before the call began and gives back
    after the call ended; and the entries and exits seen at the pipeline
    never overlap. *)
Theorem pipeline_calls_never_overlap (n : nat) (sched : list Workers.action)
  (st : Workers.state) :
  Workers.run sched (Workers.init n) = Some st ->
  (forall t1 t2,
     nth_error (Workers.tasks st) t1 = Some Workers.InPipeline ->
     nth_error (Workers.tasks st) t2 = Some Workers.InPipeline ->
     t1 = t2) /\
  (forall t,
     nth_error (Workers.tasks st) t = Some Workers.InPipeline ->
     Workers.lock st = Some t) /\
  Workers.serial (Workers.events st) = true.
Proof.
  intros Hrun.
  destruct (run_invariant sched _ st (invariant_init n) Hrun)
    as [Hlock [cur [Hscan Hcur]]].
  split; [|split].
  - intros t1 t2 H1 H2. apply Hcur in H1. apply Hcur in H2. congruence.
  - intros t Ht. exact (Hlock t _ Ht eq_refl).
  - unfold Workers.serial. rewrite Hscan. reflexivity.
Qed.

(** Three calls on the two workers: the second worker waits at the lock
    while the first is inside the pipeline. *)
Lemma pipeline_calls_witness :
  exists st,
    Workers.run
      [Workers.Start 0; Workers.Start 1; Workers.Acquire 1; Workers.Call 1;
       Workers.Finish 1; Workers.Release 1; Workers.Acquire 0;
       Workers.Start 2; Workers.Call 0]
      (Workers.init 3) = Some st /\
    Workers.tasks st = [Workers.InPipeline; Workers.Done; Workers.AtLock] /\
    Workers.lock st = Some 0 /\
    Workers.events st = [Workers.Enter 1; Workers.Leave 1; Workers.Enter 0] /\
    Workers.serial (Workers.events st) = true.
Proof.
  eexists. split; [reflexivity|].
  split; [reflexivity|]. split; [reflexivity|]. split; [reflexivity|].
  apply (pipeline_calls_never_overlap 3
           [Workers.Start 0; Workers.Start 1; Workers.Acquire 1;
            Workers.Call 1; Workers.Finish 1; Workers.Release 1;
            Workers.Acquire 0; Workers.Start 2; Workers.Call 0]).
  reflexivity.
Defined.

Example lock_blocks_second_worker :
  Workers.run
    [Workers.Start 0; Workers.Start 1; Workers.Acquire 0; Workers.Acquire 1]
    (Workers.init 2) = None.
Proof. reflexivity. Qed.

Example pool_runs_two_tasks_at_most :
  Workers.run [Workers.Start 0; Workers.Start 1; Workers.Start 2]
    (Workers.init 3) = None.
Proof. reflexivity. Qed.

Example overlapping_events_are_not_serial :
  Workers.serial [Workers.Enter 0; Workers.Enter 1] = false.
Proof. reflexivity. Qed.

(** * Further properties of the validation *)

Set Implicit Arguments.

Lemma lstrip_nil_iff (s : pystr) :
  lstrip s = [] <-> forallb is_space s = true.
Proof.
  induction s as [|c t IH]; simpl; [tauto|].
  destruct (is_space c); simpl; [exact IH|].
  split; discriminate.
Qed.

Lemma forallb_is_space_lstrip (s : pystr) :
  forallb is_space (lstrip s) = true <-> forallb is_space s = true.
Proof.
  induction s as [|c t IH]; simpl; [tauto|].
  destruct (is_space c) eqn:Hc; simpl; [exact IH|].
  rewrite Hc. simpl. tauto.
Qed.

Lemma forallb_rev {A} (f : A -> bool) (l : list A) :
  forallb f (rev l) = forallb f l.
Proof.
  induction l as [|a l IH]; simpl; [reflexivity|].
  rewrite forallb_app, IH. simpl. rewrite andb_true_r. apply andb_comm.
Qed.

Lemma strip_nil_iff (s : pystr) :
  strip s = [] <-> forallb is_space s = true.
Proof.
  unfold strip, rstrip. rewrite <- forallb_is_space_lstrip.
  rewrite <- (forallb_rev is_space (lstrip s)), <- lstrip_nil_iff.
  split; intros H.
  - apply (f_equal (@rev N)) in H. rewrite rev_involutive in H. exact H.
  - rewrite H. reflexivity.
Qed.

Lemma length_lstrip (s : pystr) : (List.length (lstrip s) <= List.length s)%nat.
Proof.
  induction s as [|c t IH]; simpl; [lia|].
  destruct (is_space c); simpl; lia.
Qed.

Lemma len_strip (s : pystr) : (len (strip s) <= len s)%Z.
Proof.
  unfold len, strip, rstrip. rewrite length_rev.
  pose proof (length_lstrip (rev (lstrip s))) as H1.
  rewrite length_rev in H1. pose proof (length_lstrip s) as H2. lia.
Qed.

(** X1: the prompt of a body is accepted exactly when it has at most
    1000 characters, counted before trimming, and at least one character
    that is not whitespace. *)
Theorem prompt_accepted_iff (v : pystr) :
  (exists p, check_prompt (Given v) = Return p) <->
  (len v <= 1000)%Z /\ forallb is_space v = false.
Proof.
  unfold check_prompt, validate_prompt.
  destruct (len v <? 1)%Z eqn:E1.
  { split; [intros [p H]; discriminate|]. intros [_ H].
    apply Z.ltb_lt in E1. unfold len in E1.
    destruct v; [discriminate H|simpl in E1; lia]. }
  destruct (1000 <? len v)%Z eqn:E2.
  { split; [intros [p H]; discriminate|]. intros [H _].
    apply Z.ltb_lt in E2. lia. }
  apply Z.ltb_ge in E2.
  destruct (truthy_str (strip v)) eqn:E3; simpl.
  - split; [|eauto]. intros _. split; [exact E2|].
    destruct (forallb is_space v) eqn:Hs; [|reflexivity].
    apply strip_nil_iff in Hs. rewrite Hs in E3. discriminate.
  - split; [intros [p H]; discriminate|]. intros [_ H].
    destruct (strip v) eqn:Es; [|discriminate].
    apply strip_nil_iff in Es. congruence.
Qed.

(** X2: a request that validation produced has a prompt of 1 to 1000
    characters, a context that is absent or trimmed and of at most 2000
    characters, and every numeric parameter absent or within its declared
    range. *)
Theorem validated_request_invariant (raw : RawRequest) (req : GenerateRequest) :
  validate_request raw = Return req ->
  (1 <= len (req_prompt req) <= 1000)%Z /\
  (forall c, req_context req = Some c ->
             strip c = c /\ (len c <= 2000)%Z) /\
  (forall m, req_max_length req = Some m -> (50 <= m <= 1000)%Z) /\
  (forall t, req_temperature req = Some t ->
             PrimFloat.leb 0.1 t = true /\ PrimFloat.leb t 2.0 = true) /\
  (forall t, req_top_p req = Some t ->
             PrimFloat.leb 0.1 t = true /\ PrimFloat.leb t 1.0 = true).
Proof.
  intros H.
  pose proof (validate_request_prompt raw H) as Hp.
  pose proof (validate_request_numbers raw H) as [Hm [Ht Hq]].
  assert (Hc : check_context (raw_context raw) = Return (req_context req)).
  { unfold validate_request in H.
    repeat (apply bind_result_Return in H as [? [? H]]).
    injection H as <-. simpl. assumption. }
  split; [|split; [|split; [|split]]].
  - apply check_prompt_ok in Hp as [v [_ [Hs [Hne Hlen]]]].
    pose proof (len_strip v) as Hle. rewrite Hs. split; [|lia].
    rewrite Hs in Hne. unfold len.
    destruct (strip v); [congruence|simpl; lia].
  - intros c Hcx. rewrite Hcx in Hc.
    destruct (raw_context raw) as [| |s]; simpl in Hc; try discriminate.
    destruct (2000 <? len s)%Z eqn:E; [discriminate|].
    injection Hc as <-. apply Z.ltb_ge in E.
    split; [apply strip_idem|]. pose proof (len_strip s). lia.
  - intros m Hx. rewrite Hx in Hm. exact (check_int_given _ _ _ Hm).
  - intros t Hx. rewrite Hx in Ht. exact (check_float_given _ _ _ Ht).
  - intros t Hx. rewrite Hx in Hq. exact (check_float_given _ _ _ Hq).
Qed.

Lemma validated_request_witness :
  (1 <= len (req_prompt padded_request) <= 1000)%Z /\
  (forall m, req_max_length padded_request = Some m -> (50 <= m <= 1000)%Z).
Proof.
  pose proof (@validated_request_invariant padded_body padded_request eq_refl)
    as [Hp [_ [Hm _]]].
  split; [exact Hp|exact Hm].
Defined.

Lemma pystr_eqb_eq (a b : pystr) : pystr_eqb a b = true <-> a = b.
Proof.
  unfold pystr_eqb. destruct (list_eq_dec N.eq_dec a b); split;
    congruence.
Qed.

(** X3: the six values and the six members correspond one to one:
    looking a member's value up gives the member back, a string that is
    looked up successfully is the value of the member found, and the
    content type of a body is accepted exactly when it is absent, null or
    one of the six values. *)
Theorem content_type_round_trip :
  (forall c, ContentType_of_value (ContentType_value c) = Some c) /\
  (forall s c, ContentType_of_value s = Some c -> ContentType_value c = s) /\
  (forall f,
     (exists r, check_content_type f = Return r) <->
     match f with
     | Given s => exists c, s = ContentType_value c
     | Absent | Null => True
     end).
Proof.
  assert (H1 : forall c, ContentType_of_value (ContentType_value c) = Some c).
  { intros []; reflexivity. }
  assert (H2 : forall s c,
             ContentType_of_value s = Some c -> ContentType_value c = s).
  { intros s c H. unfold ContentType_of_value in H.
    apply find_some in H as [_ H]. apply pystr_eqb_eq. exact H. }
  split; [exact H1|]. split; [exact H2|].
  intros [| |s]; simpl; try (split; eauto; fail).
  destruct (ContentType_of_value s) as [c|] eqn:E.
  - split; [|eauto]. intros _. exists c. symmetry. exact (H2 s c E).
  - split; [intros [r H]; discriminate|].
    intros [c ->]. rewrite H1 in E. discriminate.
Qed.

(** X4: a context made only of whitespace, of at most 2000 characters,
    passes validation and is stored as the empty string; the prompt built
    for the pipeline is then the one built without a context. *)
Theorem blank_context_is_dropped (raw : RawRequest) (req : GenerateRequest)
  (c : pystr) :
  validate_request raw = Return req ->
  raw_context raw = Given c ->
  forallb is_space c = true ->
  req_context req = Some [] /\
  forall p, _prepare_prompt p (req_context req) = _prepare_prompt p None.
Proof.
  intros H Hc Hs.
  assert (Hcx : check_context (raw_context raw) = Return (req_context req)).
  { unfold validate_request in H.
    repeat (apply bind_result_Return in H as [? [? H]]).
    injection H as <-. simpl. assumption. }
  rewrite Hc in Hcx. simpl in Hcx.
  destruct (2000 <? len c)%Z; [discriminate|].
  injection Hcx as Hcx. rewrite (proj2 (strip_nil_iff c) Hs) in Hcx.
  rewrite <- Hcx. split; reflexivity.
Qed.

Lemma blank_context_witness :
  exists req,
    validate_request blank_context_body = Return req /\
    req_context req = Some [] /\
    _prepare_prompt (lit "Osmosis") (req_context req)
    = _prepare_prompt (lit "Osmosis") None.
Proof.
  eexists. split; [reflexivity|].
  destruct (@blank_context_is_dropped blank_context_body _ (lit "   ")
              eq_refl eq_refl eq_refl) as [H1 H2].
  split; [exact H1|exact (H2 (lit "Osmosis"))].
Defined.

Lemma validate_request_fails_on (raw : RawRequest) :
  (exists e, check_int 50 1000 (raw_max_length raw) = Raise e) \/
  (exists e, check_float 0.1 2.0 (raw_temperature raw) = Raise e) \/
  (exists e, check_float 0.1 1.0 (raw_top_p raw) = Raise e) ->
  exists e, validate_request raw = Raise e.
Proof.
  intros H. unfold validate_request.
  destruct (check_prompt (raw_prompt raw)); simpl; [|eauto].
  destruct (check_content_type (raw_content_type raw)); simpl; [|eauto].
  destruct (check_context (raw_context raw)); simpl; [|eauto].
  destruct (check_int 50 1000 (raw_max_length raw)) eqn:E1; simpl; [|eauto].
  destruct (check_float 0.1 2.0 (raw_temperature raw)) eqn:E2; simpl;
    [|eauto].
  destruct (check_float 0.1 1.0 (raw_top_p raw)) eqn:E3; simpl; [|eauto].
  destruct H as [[e H]|[[e H]|[e H]]]; discriminate.
Qed.

(** X5: a body is rejected by the validation, whatever its other
    fields, when its max_length is below 50 or above 1000, or when its
    temperature or its top_p is not at least 0.1 or not at most its upper
    bound (2.0 and 1.0); a NaN, for which both comparisons are false, is
    rejected.  The handler does not run on such a body: the service
    object is as it was. *)
Theorem out_of_range_parameter_is_rejected (raw : RawRequest) :
  (exists m, raw_max_length raw = Given m /\ (m < 50 \/ 1000 < m)%Z) \/
  (exists t, raw_temperature raw = Given t /\
             (PrimFloat.leb 0.1 t = false \/ PrimFloat.leb t 2.0 = false)) \/
  (exists t, raw_top_p raw = Given t /\
             (PrimFloat.leb 0.1 t = false \/ PrimFloat.leb t 1.0 = false)) ->
  (exists e, validate_request raw = Raise e) /\
  forall clock seed s,
    fst (post_generate clock seed raw (Some s)) = Some s.
Proof.
  intros H.
  assert (Hv : exists e, validate_request raw = Raise e).
  { apply validate_request_fails_on.
    destruct H as [[m [Hm Hr]]|[[t [Ht Hr]]|[t [Ht Hr]]]].
    - left. rewrite Hm. simpl.
      assert (E : ((50 <=? m)%Z && (m <=? 1000)%Z)%bool = false).
      { apply andb_false_iff.
        destruct Hr; [left; apply Z.leb_gt|right; apply Z.leb_gt];
          assumption. }
      rewrite E. eauto.
    - right. left. rewrite Ht. simpl.
      assert (E : (PrimFloat.leb 0.1 t && PrimFloat.leb t 2.0)%bool = false)
        by (apply andb_false_iff; exact Hr).
      rewrite E. eauto.
    - right. right. rewrite Ht. simpl.
      assert (E : (PrimFloat.leb 0.1 t && PrimFloat.leb t 1.0)%bool = false)
        by (apply andb_false_iff; exact Hr).
      rewrite E. eauto. }
  split; [exact Hv|]. intros clock seed s. destruct Hv as [e He].
  unfold post_generate. rewrite He. reflexivity.
Qed.

Lemma out_of_range_parameter_witness :
  exists e,
    validate_request
      {| raw_prompt := Given (lit "Osmosis"); raw_content_type := Absent;
         raw_context := Absent; raw_max_length := Absent;
         raw_temperature := Given nan; raw_top_p := Absent |} = Raise e.
Proof.
  apply out_of_range_parameter_is_rejected.
  right. left. exists nan. split; [reflexivity|]. left. reflexivity.
Defined.

(** * Further properties of the service *)

(** X6: [cleanup()] can be repeated on a service that never loaded
    anything: the second call changes nothing more.  On a service whose
    model is loaded the first call returns and deletes the attribute, and
    a second call raises [AttributeError] on [self.model], with
    [is_ready()] still false. *)
Theorem cleanup_twice (cuda cuda' : bool) (s : AIService) :
  (model s = Bound None -> tokenizer s = Bound None ->
   pipeline s = Bound None ->
   cleanup cuda' (fst (cleanup cuda s)) = cleanup cuda s) /\
  (forall m,
     model s = Bound (Some m) -> tokenizer s <> Deleted ->
     pipeline s <> Deleted ->
     snd (cleanup cuda s) = Return tt /\
     model (fst (cleanup cuda s)) = Deleted /\
     cleanup cuda' (fst (cleanup cuda s))
     = (fst (cleanup cuda s),
        Raise (AttributeError
                 (lit "'AIService' object has no attribute '" ++ lit "model"
                  ++ lit "'"))) /\
     snd (is_ready (fst (cleanup cuda s))) = Return false).
Proof.
  unfold cleanup, del_if_truthy, is_ready. run_m.
  destruct s as [[|[m|]] [|[t|]] [|[p|]] d x r c]; simpl; split.
  all: try (intros; congruence).
  all: try (intros m0 H1 H2 H3; try congruence).
  all: destruct cuda, cuda'; repeat split; reflexivity.
Qed.

Lemma cleanup_twice_witness :
  snd (cleanup false
         (fst (cleanup true (ready_service answering_pipeline))))
  = Raise (AttributeError
             (lit "'AIService' object has no attribute 'model'"))
  /\
  cleanup false (fst (cleanup true new_AIService)) = cleanup true new_AIService.
Proof.
  split.
  - destruct (proj2 (cleanup_twice true false
                       (ready_service answering_pipeline))
                sample_model eq_refl)
      as [_ [_ [H _]]]; [discriminate|discriminate|].
    rewrite H. reflexivity.
  - apply (proj1 (cleanup_twice true false new_AIService)); reflexivity.
Defined.

Lemma cleanup_shuts_executor (cuda : bool) (s : AIService) :
  executor_shutdown (fst (cleanup cuda s)) = true.
Proof.
  unfold cleanup, del_if_truthy. run_m.
  destruct s as [[|[m|]] [|[t|]] [|[p|]] d x r c]; destruct cuda;
    reflexivity.
Qed.

Lemma initialize_shut_executor (env : LoadEnv) (s : AIService) :
  executor_shutdown s = true ->
  initialize env s
  = (set_device (chosen_device env) s,
     Raise (RuntimeError (lit "cannot schedule new futures after shutdown"))).
Proof. intros H. rewrite initialize_unfold. simpl. rewrite H. reflexivity. Qed.

Lemma run_op_keeps_executor_shut (o : Op) (s : AIService) :
  executor_shutdown s = true -> executor_shutdown (fst (run_op o s)) = true.
Proof.
  intros H. destruct o as [env| |seed p ml te tp cx|cuda]; simpl.
  - rewrite (initialize_shut_executor env s H). exact H.
  - rewrite is_ready_state. exact H.
  - destruct (generate_text_frame seed p ml te tp cx s)
      as [_ [_ [_ [_ [Hx _]]]]].
    rewrite Hx. exact H.
  - apply cleanup_shuts_executor.
Qed.

Lemma run_ops_keeps_executor_shut (ops : list Op) (s : AIService) :
  executor_shutdown s = true -> executor_shutdown (run_ops ops s) = true.
Proof.
  revert s. induction ops as [|o ops IH]; intros s H; [exact H|].
  rewrite run_ops_cons. apply IH, run_op_keeps_executor_shut, H.
Qed.

(** X7: once [cleanup()] was called the service never becomes ready
    again, whatever is called afterwards: the executor stays shut down,
    [is_ready()] is false, every later [initialize()] raises "cannot
    schedule new futures after shutdown" and every later [generate_text]
    raises the not-ready error. *)
Theorem never_ready_after_cleanup (before after : list Op) (cuda : bool) :
  let s := run_ops (before ++ OpCleanup cuda :: after) new_AIService in
  executor_shutdown s = true /\
  snd (is_ready s) = Return false /\
  (forall env,
     snd (initialize env s)
     = Raise (RuntimeError
                (lit "cannot schedule new futures after shutdown"))) /\
  (forall seed p ml te tp cx,
     generate_text seed p ml te tp cx s
     = (s, Raise (RuntimeError (lit "AI service is not ready")))).
Proof.
  intros s.
  assert (Hx : executor_shutdown s = true).
  { unfold s. rewrite run_ops_app, run_ops_cons.
    apply run_ops_keeps_executor_shut. simpl. apply cleanup_shuts_executor. }
  destruct (run_ops_consistent (before ++ OpCleanup cuda :: after)
              consistent_new) as [Hc _].
  fold s in Hc.
  assert (Hr : snd (is_ready s) = Return false).
  { rewrite (consistent_is_ready Hc). destruct (_ready s) eqn:E;
      [|reflexivity].
    destruct Hc as [_ H2]. destruct (H2 E) as [Hx' _]. congruence. }
  split; [exact Hx|]. split; [exact Hr|]. split.
  - intros env. rewrite (initialize_shut_executor env s Hx). reflexivity.
  - intros seed p ml te tp cx. apply is_ready_eq in Hr.
    unfold generate_text, bind. rewrite Hr. reflexivity.
Qed.

(** ** What a request does to the pipeline *)

Lemma initialize_tokenizer_loaded (env : LoadEnv) (s : AIService) :
  tokenizer_loaded s -> tokenizer_loaded (fst (initialize env s)).
Proof.
  unfold tokenizer_loaded. rewrite initialize_unfold. simpl.
  destruct (executor_shutdown s); [simpl; auto|].
  destruct (tokenizer_from_pretrained env) as [tok|e]; [|simpl; auto].
  destruct (model_from_pretrained env) as [m|e]; [|simpl; eauto].
  destruct (new_pipeline env m tok) as [p|e]; simpl; eauto.
Qed.

Lemma run_op_tokenizer_loaded (o : Op) (s : AIService) :
  consistent s -> tokenizer_loaded s -> tokenizer_loaded (fst (run_op o s)).
Proof.
  intros Hc Ht. destruct o as [env| |seed p ml te tp cx|cuda]; simpl.
  - apply initialize_tokenizer_loaded, Ht.
  - rewrite is_ready_state. exact Ht.
  - destruct (generate_text_frame seed p ml te tp cx s)
      as [_ [Hk [_ [_ [_ Hr]]]]].
    unfold tokenizer_loaded. rewrite Hk, Hr. exact Ht.
  - destruct (cleanup_consistent cuda Hc) as [_ Hr].
    unfold tokenizer_loaded. rewrite Hr. discriminate.
Qed.

Lemma run_ops_tokenizer_loaded (ops : list Op) (s : AIService) :
  consistent s -> tokenizer_loaded s -> tokenizer_loaded (run_ops ops s).
Proof.
  revert s. induction ops as [|o ops IH]; intros s Hc Ht; [exact Ht|].
  rewrite run_ops_cons. apply IH.
  - apply (run_op_consistent o Hc).
  - apply run_op_tokenizer_loaded; assumption.
Qed.

Lemma tokenizer_loaded_new : tokenizer_loaded new_AIService.
Proof. unfold tokenizer_loaded. simpl. discriminate. Qed.

(** The state after [generate_text] on a service with everything in
    place: one more recorded call. *)
Lemma generate_text_logs_one_call (seed : nat) (p : pystr) (ml : option Z)
  (te tp : option float) (cx : option pystr) (s : AIService)
  (pl : Pipeline) (tok : Tokenizer) :
  _ready s = true -> pipeline s = Bound (Some pl) ->
  tokenizer s = Bound (Some tok) -> executor_shutdown s = false ->
  let ps := effective_parameters ml te tp in
  fst (generate_text seed p ml te tp cx s)
  = log_call (pipeline_args (_prepare_prompt p cx) (p_max_length ps)
                (p_temperature ps) (p_top_p ps) tok) s.
Proof.
  intros Hr Hp Ht Hx.
  rewrite (generate_text_ready seed p ml te tp cx s Hr Hp).
  simpl. rewrite Hx, Ht.
  destruct (run_pipeline pl seed _) as [[|g gs]|e]; reflexivity.
Qed.

Lemma generate_content_state (clock : Clock) (seed : nat)
  (request : GenerateRequest) (s : AIService) :
  fst (generate_content clock seed request s)
  = match snd (is_ready s) with
    | Return true =>
        fst (generate_text seed
               (_enhance_prompt_by_type (req_prompt request)
                  (pyobj_of_content_type (req_content_type request)))
               (req_max_length request) (req_temperature request)
               (req_top_p request) (req_context request) s)
    | _ => s
    end.
Proof.
  unfold generate_content, try_except_http, bind.
  pose proof (is_ready_state s) as Hs.
  destruct (is_ready s) as [s1 [[|]|e]]; simpl in *; subst s1.
  - destruct (generate_text _ _ _ _ _ _ s) as [s2 [r|e]]; simpl;
      [reflexivity|].
    destruct (isinstance_HTTPException e); [reflexivity|].
    destruct (isinstance_Exception e); reflexivity.
  - reflexivity.
  - destruct (isinstance_HTTPException e); [reflexivity|].
    destruct (isinstance_Exception e); reflexivity.
Qed.

(** X8: on a service object that was only used through calls of its
    methods one after another, the handler of a request makes exactly one
    call of the pipeline when the service is ready, whether that call
    returns or raises, and none when it is not ready: nothing is retried.
    The one call carries the prompt built from the content-type
    instruction, the context and the request, the effective parameters,
    sampling switched on, the tokenizer's end-of-sequence id as padding
    id, one returned sequence and no echo of the prompt. *)
Theorem one_pipeline_call_per_request (ops : list Op) (clock : Clock)
  (seed : nat) (request : GenerateRequest) :
  let s := run_ops ops new_AIService in
  let s' := fst (generate_content clock seed request s) in
  (snd (is_ready s) = Return false -> calls s' = calls s) /\
  (snd (is_ready s) = Return true ->
   exists tok c,
     tokenizer s = Bound (Some tok) /\
     calls s' = calls s ++ [c] /\
     call_prompt c
     = _prepare_prompt
         (_enhance_prompt_by_type (req_prompt request)
            (pyobj_of_content_type (req_content_type request)))
         (req_context request) /\
     call_max_length c
     = or_int (req_max_length request) (Config.max_length Config.settings) /\
     call_temperature c
     = or_float (req_temperature request)
         (Config.temperature Config.settings) /\
     call_top_p c
     = or_float (req_top_p request) (Config.top_p Config.settings) /\
     call_do_sample c = true /\
     call_pad_token_id c = eos_token_id tok /\
     call_num_return_sequences c = 1%Z /\
     call_return_full_text c = false).
Proof.
  intros s s'. unfold s'. rewrite generate_content_state. split.
  - intros H. rewrite H. reflexivity.
  - intros H. rewrite H.
    destruct (run_ops_consistent ops consistent_new) as [[_ Hc2] _].
    pose proof (run_ops_tokenizer_loaded ops consistent_new
                  tokenizer_loaded_new) as Ht.
    fold s in Hc2, Ht.
    apply is_ready_true in H as [Hr [pl Hp]].
    destruct (Hc2 Hr) as [Hx _]. destruct (Ht Hr) as [tok Htok].
    rewrite (generate_text_logs_one_call seed _ _ _ _ _ s Hr Hp Htok Hx).
    eexists tok, _. split; [exact Htok|].
    split; [reflexivity|]. repeat split.
Qed.

Lemma one_pipeline_call_witness :
  List.length
    (calls (fst (generate_content sample_clock 0 photosynthesis_request
                   (run_ops [OpInitialize (loading_env exhausted_pipeline)]
                      new_AIService))))
  = 1%nat.
Proof.
  destruct (proj2 (one_pipeline_call_per_request
                     [OpInitialize (loading_env exhausted_pipeline)]
                     sample_clock 0 photosynthesis_request) eq_refl)
    as [tok [c [_ [H _]]]].
  rewrite H. reflexivity.
Defined.

Lemma generate_text_returns_text (seed : nat) (p : pystr) (ml : option Z)
  (te tp : option float) (cx : option pystr) (s s' : AIService)
  (r : GenerationResult) :
  generate_text seed p ml te tp cx s = (s', Return r) ->
  exists pl c g rest,
    pipeline s = Bound (Some pl) /\
    run_pipeline pl seed c = Return (g :: rest) /\
    res_generated_text r = strip g.
Proof.
  intros H.
  assert (Hr : snd (is_ready s) = Return true).
  { unfold generate_text, bind, raise in H.
    destruct (is_ready s) as [s1 [[|]|e]]; simpl in *;
      [reflexivity|discriminate|discriminate]. }
  apply is_ready_true in Hr as [Hf [pl Hp]].
  rewrite (generate_text_ready seed p ml te tp cx s Hf Hp) in H.
  simpl in H. destruct (executor_shutdown s); [discriminate|].
  destruct (tokenizer s) as [|[tok|]]; try discriminate.
  destruct (run_pipeline pl seed _) as [[|g gs]|e] eqn:E; try discriminate.
  injection H as _ <-. exists pl. eexists. exists g, gs.
  split; [exact Hp|]. split; [exact E|reflexivity].
Qed.

(** X9: the text that [generate_text] returns is trimmed: it is the
    first sequence that the pipeline returned with the whitespace at both
    ends removed, so trimming it again changes nothing and it neither
    starts nor ends with a whitespace character; further sequences that
    the pipeline returned are not used. *)
Theorem generated_text_is_trimmed (seed : nat) (p : pystr) (ml : option Z)
  (te tp : option float) (cx : option pystr) (s s' : AIService)
  (result : GenerationResult) :
  generate_text seed p ml te tp cx s = (s', Return result) ->
  (exists pl c g rest,
     pipeline s = Bound (Some pl) /\
     run_pipeline pl seed c = Return (g :: rest) /\
     res_generated_text result = strip g) /\
  strip (res_generated_text result) = res_generated_text result /\
  (forall c t, res_generated_text result = c :: t -> is_space c = false) /\
  (forall c t, res_generated_text result = t ++ [c] -> is_space c = false).
Proof.
  intros H.
  apply generate_text_returns_text in H as [pl [c [g [rest [Hp [Hr Hs]]]]]].
  rewrite Hs. split.
  - exists pl, c, g, rest. auto.
  - split; [apply strip_idem|]. split; intros a t.
    + apply strip_first.
    + apply strip_last.
Qed.

Lemma generated_text_witness :
  match
    snd (generate_text 0 (lit "Photosynthesis") None None None None
           (ready_service answering_pipeline))
  with
  | Return result =>
      res_generated_text result = lit "Plants turn light into sugar." /\
      strip (res_generated_text result) = res_generated_text result
  | Raise _ => False
  end.
Proof.
  destruct (generate_text 0 (lit "Photosynthesis") None None None None
              (ready_service answering_pipeline)) as [s' [result|e]] eqn:E;
    simpl.
  - split.
    + vm_compute in E. injection E as _ <-. reflexivity.
    + exact (proj1 (proj2 (@generated_text_is_trimmed _ _ _ _ _ _ _ _ _ E))).
  - vm_compute in E. discriminate E.
Defined.

(** X10: what [except Exception] does not convert.  On a ready service,
    when the generation raises an exception that is not a subclass of
    [Exception], or an [HTTPException], the handler raises it unchanged
    and builds no response; the route then answers with the status of the
    [HTTPException], or the exception leaves the route. *)
Theorem uncaught_exception_leaves_handler (clock : Clock) (seed : nat)
  (raw : RawRequest) (request : GenerateRequest) (s s' : AIService)
  (e : exn) :
  validate_request raw = Return request ->
  snd (is_ready s) = Return true ->
  generate_text seed
    (_enhance_prompt_by_type (req_prompt request)
       (pyobj_of_content_type (req_content_type request)))
    (req_max_length request) (req_temperature request)
    (req_top_p request) (req_context request) s = (s', Raise e) ->
  plain_exception e = false ->
  generate_content clock seed request s = (s', Raise e) /\
  post_generate clock seed raw (Some s)
  = (Some s',
     match e with
     | HTTPException c d => Error c d
     | _ => Unhandled e
     end).
Proof.
  intros Hv Hr Hg He.
  assert (Hh : generate_content clock seed request s = (s', Raise e)).
  { rewrite (generate_content_ready clock seed request s Hr), Hg.
    unfold plain_exception in He.
    destruct (isinstance_HTTPException e); [reflexivity|].
    destruct (isinstance_Exception e); [discriminate|reflexivity]. }
  split; [exact Hh|]. unfold post_generate. rewrite Hv, Hh.
  destruct e; reflexivity.
Qed.

Lemma uncaught_exception_witness :
  snd (generate_content sample_clock 0 photosynthesis_request
         (ready_service cancelled_pipeline))
  = Raise (OtherBaseException (lit "CancelledError") []).
Proof.
  rewrite (proj1 (@uncaught_exception_leaves_handler sample_clock 0
                    photosynthesis_body photosynthesis_request
                    (ready_service cancelled_pipeline)
                    (fst (generate_content sample_clock 0
                            photosynthesis_request
                            (ready_service cancelled_pipeline)))
                    (OtherBaseException (lit "CancelledError") [])
                    eq_refl eq_refl ltac:(vm_compute; reflexivity) eq_refl)).
  reflexivity.
Defined.

(** X11: an [initialize()] that raises on a ready service leaves the
    service ready with the pipeline it had; when the failing call had
    already loaded a tokenizer, that new tokenizer has replaced the old
    one, so later requests run the old pipeline with the padding id of
    the new tokenizer. *)
Theorem failed_reinitialize_keeps_ready (env : LoadEnv) (s : AIService)
  (e : exn) :
  snd (is_ready s) = Return true ->
  snd (initialize env s) = Raise e ->
  let s' := fst (initialize env s) in
  snd (is_ready s') = Return true /\
  pipeline s' = pipeline s /\
  (executor_shutdown s = false ->
   forall tok, tokenizer_from_pretrained env = Return tok ->
               tokenizer s' = Bound (Some tok)).
Proof.
  intros Hr. apply is_ready_true in Hr as [Hf [pl Hp]].
  rewrite initialize_unfold. simpl.
  destruct (executor_shutdown s).
  { simpl. intros _. split; [|split; [reflexivity|discriminate]].
    apply is_ready_true. simpl. eauto. }
  destruct (tokenizer_from_pretrained env) as [tok|e1]; simpl.
  2: { intros _. split; [|split; [reflexivity|discriminate]].
       apply is_ready_true. simpl. eauto. }
  destruct (model_from_pretrained env) as [m|e1]; simpl.
  2: { intros _. split; [|split; [reflexivity|]].
       - apply is_ready_true. simpl. eauto.
       - intros _ tok' H. injection H as <-. reflexivity. }
  destruct (new_pipeline env m tok) as [p|e1]; simpl; [discriminate|].
  intros _. split; [|split; [reflexivity|]].
  - apply is_ready_true. simpl. eauto.
  - intros _ tok' H. injection H as <-. reflexivity.
Qed.

Lemma failed_reinitialize_witness :
  snd (is_ready (fst (initialize out_of_memory_env
                        (ready_service answering_pipeline))))
  = Return true.
Proof.
  apply (@failed_reinitialize_keeps_ready out_of_memory_env
           (ready_service answering_pipeline)
           (OtherException (lit "OutOfMemoryError")
              (lit "CUDA out of memory")));
    reflexivity.
Defined.

(** * Further properties of the routes and of the application *)

Lemma frames_generate_content (clock : Clock) (seed : nat)
  (request : GenerateRequest) : frames (generate_content clock seed request).
Proof.
  intros s. rewrite generate_content_state.
  destruct (snd (is_ready s)) as [[|]|e]; try apply same_object_refl.
  apply generate_text_frame.
Qed.

Lemma post_generate_state (clock : Clock) (seed : nat) (raw : RawRequest)
  (s : AIService) :
  fst (post_generate clock seed raw (Some s))
  = Some match validate_request raw with
         | Return request => fst (generate_content clock seed request s)
         | Raise _ => s
         end.
Proof.
  unfold post_generate.
  destruct (validate_request raw) as [request|e]; [|reflexivity].
  destruct (generate_content clock seed request s) as [s' [b|[]]];
    reflexivity.
Qed.

Lemma health_check_eq (now : pystr) (s : AIService) :
  health_check now s
  = (s, match snd (is_ready s) with
        | Return ready =>
            Return {| status := lit "healthy";
                      service := lit "EducatorAI";
                      model_loaded := ready;
                      timestamp := Some now |}
        | Raise e => Raise e
        end).
Proof.
  unfold health_check, bind, ret. pose proof (is_ready_state s) as Hs.
  destruct (is_ready s) as [s1 [b|e]]; simpl in *; subst s1; reflexivity.
Qed.

Lemma serve_same_object (r : Served) (s : AIService) :
  same_object s (serve r s).
Proof.
  destruct r as [clock seed raw|now]; unfold serve.
  - rewrite post_generate_state.
    destruct (validate_request raw) as [request|e];
      [apply frames_generate_content|apply same_object_refl].
  - rewrite health_check_eq. apply same_object_refl.
Qed.

Lemma serve_all_same_object (rs : list Served) (s : AIService) :
  same_object s (serve_all rs s).
Proof.
  revert s. induction rs as [|r rs IH]; intros s; [apply same_object_refl|].
  exact (same_object_trans (serve_same_object r s) (IH (serve r s))).
Qed.

Lemma started_service (env : LoadEnv) :
  snd (lifespan_startup env) = Return tt ->
  let s := fst (lifespan_startup env) in
  (exists m, model s = Bound (Some m)) /\
  (exists t, tokenizer s = Bound (Some t)) /\
  (exists p, pipeline s = Bound (Some p)) /\
  executor_shutdown s = false /\ _ready s = true.
Proof.
  rewrite lifespan_startup_eq, initialize_unfold. simpl.
  destruct (tokenizer_from_pretrained env) as [tok|e]; [|discriminate].
  destruct (model_from_pretrained env) as [m|e]; [|discriminate].
  destruct (new_pipeline env m tok) as [p|e]; [|discriminate].
  simpl. intros _. repeat split; eauto.
Qed.

Lemma cleanup_loaded (cuda : bool) (s : AIService) (m : Model)
  (t : Tokenizer) (p : Pipeline) :
  model s = Bound (Some m) -> tokenizer s = Bound (Some t) ->
  pipeline s = Bound (Some p) ->
  cleanup cuda s
  = ({| model := Deleted; tokenizer := Deleted; pipeline := Deleted;
        device := device s; executor_shutdown := true; _ready := false;
        calls := calls s |}, Return tt).
Proof.
  unfold cleanup, del_if_truthy. run_m.
  destruct s as [m0 t0 p0 d x r c]; simpl. intros -> -> ->.
  destruct cuda; reflexivity.
Qed.

(** X12: after a start-up that succeeded, however many generation and
    health requests the application serves, the service is still ready;
    the shutdown then returns without raising, deletes the model, the
    tokenizer and the pipeline, shuts the executor down and leaves
    [is_ready()] false. *)
Theorem lifespan_serves_then_shuts_down (env : LoadEnv) (rs : list Served)
  (cuda : bool) :
  snd (lifespan_startup env) = Return tt ->
  let s := serve_all rs (fst (lifespan_startup env)) in
  snd (is_ready s) = Return true /\
  exists s',
    lifespan_shutdown cuda (Some s) = (Some s', Return tt) /\
    model s' = Deleted /\ tokenizer s' = Deleted /\ pipeline s' = Deleted /\
    executor_shutdown s' = true /\ calls s' = calls s /\
    snd (is_ready s') = Return false.
Proof.
  intros Hs s.
  destruct (started_service env Hs) as [[m Hm] [[t Ht] [[p Hp] [Hx Hr]]]].
  destruct (serve_all_same_object rs (fst (lifespan_startup env)))
    as [Em [Et [Ep [_ [Ex Er]]]]].
  fold s in Em, Et, Ep, Ex, Er.
  rewrite Hm in Em. rewrite Ht in Et. rewrite Hp in Ep. rewrite Hr in Er.
  split.
  - apply is_ready_true. eauto.
  - unfold lifespan_shutdown. rewrite (cleanup_loaded cuda s Em Et Ep).
    simpl. eexists. split; [reflexivity|]. repeat split.
Qed.

Lemma lifespan_witness :
  snd (is_ready
         (serve_all [ServedHealth (lit "2025-01-01T00:00:00");
                     ServedGenerate sample_clock 0 photosynthesis_body;
                     ServedGenerate sample_clock 1 blank_body]
            (fst (lifespan_startup (loading_env exhausted_pipeline)))))
  = Return true.
Proof.
  apply (@lifespan_serves_then_shuts_down (loading_env exhausted_pipeline)
           [ServedHealth (lit "2025-01-01T00:00:00");
            ServedGenerate sample_clock 0 photosynthesis_body;
            ServedGenerate sample_clock 1 blank_body] false).
  reflexivity.
Defined.

(** X13: when the generation returns a text, the handler still sends
    no response.  The call that builds the success response leaves out
    the required field [error] and raises; the handler's own except
    clause catches that and its failure call raises in turn, for
    [generated_text] and [parameters]; the route answers with that error
    unhandled, after the one call of the pipeline was made and its text
    discarded. *)
Theorem success_path_raises (clock : Clock) (seed : nat) (raw : RawRequest)
  (request : GenerateRequest) (s s' : AIService) (result : GenerationResult) :
  validate_request raw = Return request ->
  generate_text seed
    (_enhance_prompt_by_type (req_prompt request)
       (pyobj_of_content_type (req_content_type request)))
    (req_max_length request) (req_temperature request)
    (req_top_p request) (req_context request) s = (s', Return result) ->
  new_GenerateResponse (Passed true)
    (Passed (Some (res_generated_text result)))
    (Passed (Some (req_prompt request))) (Passed (req_context request))
    (Passed (req_content_type request))
    (Passed (Some (res_parameters result))) Omitted
    (Passed (Some (PrimFloat.sub (end_time clock) (start_time clock))))
  = Raise success_call_error /\
  plain_exception success_call_error = true /\
  generate_content clock seed request s = (s', Raise failure_call_error) /\
  post_generate clock seed raw (Some s)
  = (Some s', Unhandled failure_call_error) /\
  exists c, calls s' = calls s ++ [c].
Proof.
  intros Hv Hg.
  assert (Hr : snd (is_ready s) = Return true).
  { unfold generate_text, bind, raise in Hg.
    destruct (is_ready s) as [s1 [[|]|e]]; simpl in *;
      [reflexivity|discriminate|discriminate]. }
  assert (Hh : generate_content clock seed request s
               = (s', Raise failure_call_error)).
  { rewrite (generate_content_ready clock seed request s Hr), Hg.
    reflexivity. }
  split; [reflexivity|]. split; [reflexivity|]. split; [exact Hh|]. split.
  - unfold post_generate. rewrite Hv, Hh. reflexivity.
  - apply generate_text_returns in Hg as [_ [_ [_ [tok [_ Hs]]]]].
    eexists. rewrite Hs. reflexivity.
Qed.

Lemma success_path_witness :
  snd (post_generate sample_clock 0 photosynthesis_body
         (Some (ready_service answering_pipeline)))
  = Unhandled failure_call_error.
Proof.
  destruct (generate_text 0
              (_enhance_prompt_by_type (req_prompt photosynthesis_request)
                 (pyobj_of_content_type
                    (req_content_type photosynthesis_request)))
              (req_max_length photosynthesis_request)
              (req_temperature photosynthesis_request)
              (req_top_p photosynthesis_request)
              (req_context photosynthesis_request)
              (ready_service answering_pipeline))
    as [s' [result|e]] eqn:E; [|vm_compute in E; discriminate E].
  destruct (@success_path_raises sample_clock 0 photosynthesis_body
              photosynthesis_request (ready_service answering_pipeline)
              s' result eq_refl E) as [_ [_ [_ [H _]]]].
  rewrite H. reflexivity.
Defined.

Lemma post_generate_not_ready (clock : Clock) (seed : nat) (raw : RawRequest)
  (request : GenerateRequest) (s : AIService) :
  validate_request raw = Return request ->
  snd (is_ready s) = Return false ->
  post_generate clock seed raw (Some s)
  = (Some s, Error 503 (lit "AI model is not ready. Please try again later.")).
Proof.
  intros Hv Hn. apply is_ready_eq in Hn.
  unfold post_generate, generate_content, try_except_http, bind.
  rewrite Hv, Hn. reflexivity.
Qed.

(** X14: on a service object used through calls of its methods one
    after another, both health routes answer "healthy" whether or not the
    model is loaded, and report the same [model_loaded].  When it is
    false, a valid generation request is answered 503; when it is true,
    the request reaches the pipeline.  With no service object at all the
    route of the router answers 503 while the route of main.py still
    answers "healthy" with [model_loaded] false. *)
Theorem health_routes (ops : list Op) (now : pystr) (clock : Clock)
  (seed : nat) (raw : RawRequest) (request : GenerateRequest) :
  validate_request raw = Return request ->
  let s := run_ops ops new_AIService in
  (exists h,
     get_api_health now (Some s) = Answered h /\
     status h = lit "healthy" /\ timestamp h = Some now /\
     main_health_check (Some s)
     = Return {| main_status := lit "healthy";
                 main_service := lit "EducatorAI";
                 main_model_loaded := model_loaded h |} /\
     (model_loaded h = false ->
      post_generate clock seed raw (Some s)
      = (Some s,
         Error 503 (lit "AI model is not ready. Please try again later."))) /\
     (model_loaded h = true ->
      exists c, fst (post_generate clock seed raw (Some s))
                = Some (log_call c s))) /\
  get_api_health now None = Refused 503 (lit "AI service not available") /\
  main_health_check None
  = Return {| main_status := lit "healthy";
              main_service := lit "EducatorAI";
              main_model_loaded := false |}.
Proof.
  intros Hv s. split; [|split; reflexivity].
  destruct (run_ops_consistent ops consistent_new) as [Hc _]. fold s in Hc.
  pose proof (consistent_is_ready Hc) as Hr.
  pose proof (run_ops_tokenizer_loaded ops consistent_new
                tokenizer_loaded_new) as Ht. fold s in Ht.
  eexists. unfold get_api_health, get_ai_service, main_health_check.
  rewrite health_check_eq. cbn [snd]. rewrite Hr. cbn [answer_of bind_result].
  split; [reflexivity|]. cbn [status timestamp model_loaded].
  split; [reflexivity|]. split; [reflexivity|]. split; [reflexivity|]. split.
  - intros Hf. rewrite Hf in Hr.
    exact (post_generate_not_ready clock seed raw s Hv Hr).
  - intros Hf. rewrite post_generate_state, Hv, generate_content_state, Hr, Hf.
    destruct Hc as [_ Hc2]. destruct (Hc2 Hf) as [Hx [pl Hp]].
    destruct (Ht Hf) as [tok Htok].
    rewrite (generate_text_logs_one_call seed _ _ _ _ _ s Hf Hp Htok Hx).
    eexists. reflexivity.
Qed.

Lemma health_routes_witness :
  post_generate sample_clock 0 photosynthesis_body (Some new_AIService)
  = (Some new_AIService,
     Error 503 (lit "AI model is not ready. Please try again later.")).
Proof.
  destruct (proj1 (@health_routes [] (lit "2025-01-01T00:00:00") sample_clock
                     0 photosynthesis_body photosynthesis_request eq_refl))
    as [h [H [_ [_ [_ [Hf _]]]]]].
  apply Hf. vm_compute in H. injection H as <-. reflexivity.
Defined.

Lemma descriptions_keys : map fst descriptions = all_ContentType.
Proof. reflexivity. Qed.

(** X15: the content-types route lists the six values in the order of
    the enumeration, and a string is listed exactly when the validation
    of a request accepts it as content type; the description of each
    entry is the one that [descriptions] holds for the member, never the
    fallback, which is what an object equal to no member gets. *)
Theorem content_types_listing (title : pystr -> pystr) :
  map entry_value (get_content_types title)
  = map ContentType_value all_ContentType /\
  (forall s,
     In s (map entry_value (get_content_types title)) <->
     exists c, check_content_type (Given s) = Return (Some c)) /\
  (forall entry,
     In entry (get_content_types title) ->
     exists c,
       entry_value entry = ContentType_value c /\
       In (c, entry_description entry) descriptions /\
       entry_description entry <> lit "Educational content") /\
  (forall k,
     recognized k = false ->
     _get_content_type_description k = lit "Educational content").
Proof.
  assert (Hvals : map entry_value (get_content_types title)
                  = map ContentType_value all_ContentType).
  { unfold get_content_types. rewrite map_map. reflexivity. }
  split; [exact Hvals|]. split; [|split].
  - intros s. rewrite Hvals, in_map_iff. split.
    + intros [c [<- _]]. exists c. simpl.
      destruct c; reflexivity.
    + intros [c H]. simpl in H.
      destruct (ContentType_of_value s) as [c'|] eqn:E; [|discriminate].
      exists c'. split.
      * unfold ContentType_of_value in E. apply find_some in E as [_ E].
        apply pystr_eqb_eq. exact E.
      * destruct c'; simpl; tauto.
  - intros entry Hin. unfold get_content_types in Hin.
    apply in_map_iff in Hin as [c [<- _]]. exists c.
    split; [reflexivity|]. destruct c; simpl.
    all: split; [vm_compute; tauto|vm_compute; discriminate].
  - intros k Hk. unfold recognized, all_ContentType in Hk.
    cbn [existsb] in Hk.
    repeat (apply orb_false_elim in Hk as [? Hk]).
    unfold _get_content_type_description, dict_get, descriptions.
    cbn [find fst].
    repeat match goal with
           | E : key_eqb k _ = false |- _ => rewrite E; clear E
           end.
    reflexivity.
Qed.

Lemma content_types_witness :
  _get_content_type_description (PyStr (lit "poem"))
  = lit "Educational content".
Proof.
  apply (proj2 (proj2 (proj2 (content_types_listing (fun s => s))))).
  reflexivity.
Defined.

(** * Further properties of the worker pool *)

Unset Implicit Arguments.

Lemma count_update (f : Workers.pc -> bool) (l : list Workers.pc) (t : nat)
  (old new : Workers.pc) :
  nth_error l t = Some old ->
  (List.length (filter f (Workers.update l t new)) + Nat.b2n (f old)
   = List.length (filter f l) + Nat.b2n (f new))%nat.
Proof.
  revert t. induction l as [|a l IH]; intros [|t] H; simpl in *;
    try discriminate.
  - injection H as ->. destruct (f old), (f new); simpl; lia.
  - specialize (IH t H). destruct (f a); simpl; lia.
Qed.

Lemma sum_update (l : list Workers.pc) (t : nat) (old new : Workers.pc) :
  nth_error l t = Some old ->
  (list_sum (map rank (Workers.update l t new)) + rank old
   = list_sum (map rank l) + rank new)%nat.
Proof.
  revert t. induction l as [|a l IH]; intros [|t] H; simpl in *;
    try discriminate.
  - injection H as ->. lia.
  - specialize (IH t H). lia.
Qed.

(** What a step does, action by action. *)
Lemma step_moves (a : Workers.action) (st st' : Workers.state) :
  Workers.step a st = Some st' ->
  exists t old new,
    nth_error (Workers.tasks st) t = Some old /\
    Workers.tasks st' = Workers.update (Workers.tasks st) t new /\
    move old new /\
    match a with
    | Workers.Start u =>
        u = t /\ old = Workers.Queued /\ Workers.lock st' = Workers.lock st /\
        (Workers.busy st < Workers.max_workers)%nat
    | Workers.Acquire u =>
        u = t /\ old = Workers.AtLock /\ Workers.lock st = None /\
        Workers.lock st' = Some t
    | Workers.Call u =>
        u = t /\ old = Workers.Holding /\ Workers.lock st' = Workers.lock st
    | Workers.Finish u =>
        u = t /\ old = Workers.InPipeline /\
        Workers.lock st' = Workers.lock st
    | Workers.Release u =>
        u = t /\ old = Workers.AfterCall /\ Workers.lock st' = None
    end.
Proof.
  destruct a as [t|t|t|t|t]; simpl.
  - destruct (Workers.at_pc st t Workers.Queued) eqn:Hat; [|discriminate].
    destruct (Workers.busy st <? Workers.max_workers)%nat eqn:Hb;
      [|discriminate].
    apply at_pc_true in Hat. apply Nat.ltb_lt in Hb.
    intros H. injection H as <-. simpl.
    exists t, Workers.Queued, Workers.AtLock.
    repeat split; trivial; constructor.
  - destruct (Workers.lock st) eqn:Hl; [discriminate|].
    destruct (Workers.at_pc st t Workers.AtLock) eqn:Hat; [|discriminate].
    apply at_pc_true in Hat. intros H. injection H as <-. simpl.
    exists t, Workers.AtLock, Workers.Holding.
    repeat split; trivial; constructor.
  - destruct (Workers.at_pc st t Workers.Holding) eqn:Hat; [|discriminate].
    apply at_pc_true in Hat. intros H. injection H as <-. simpl.
    exists t, Workers.Holding, Workers.InPipeline.
    repeat split; trivial; constructor.
  - destruct (Workers.at_pc st t Workers.InPipeline) eqn:Hat;
      [|discriminate].
    apply at_pc_true in Hat. intros H. injection H as <-. simpl.
    exists t, Workers.InPipeline, Workers.AfterCall.
    repeat split; trivial; constructor.
  - destruct (Workers.at_pc st t Workers.AfterCall) eqn:Hat;
      [|discriminate].
    apply at_pc_true in Hat. intros H. injection H as <-. simpl.
    exists t, Workers.AfterCall, Workers.Done.
    repeat split; trivial; constructor.
Qed.

Lemma step_progress (a : Workers.action) (st st' : Workers.state) :
  Workers.step a st = Some st' -> progress st' = S (progress st).
Proof.
  intros H. apply step_moves in H as [t [old [new [Hn [Ht [Hm _]]]]]].
  unfold progress. rewrite Ht.
  pose proof (sum_update _ t old new Hn) as Hs.
  destruct Hm; simpl in Hs; lia.
Qed.

Lemma step_pool_invariant (n : nat) (a : Workers.action)
  (st st' : Workers.state) :
  pool_invariant n st -> Workers.step a st = Some st' ->
  pool_invariant n st'.
Proof.
  intros [Hinv [Hholder [Hbusy Hlen]]] Hstep.
  pose proof (step_invariant a st st' Hinv Hstep) as Hinv'.
  destruct Hinv as [Hlock _].
  apply step_moves in Hstep as [t [old [new [Hn [Ht [Hm Ha]]]]]].
  split; [exact Hinv'|]. split; [|split].
  - intros u Hu. rewrite Ht.
    destruct a as [w|w|w|w|w]; destruct Ha as [-> [-> Ha]].
    + destruct Ha as [Ha _]. rewrite Ha in Hu.
      destruct (Hholder u Hu) as [p [Hp Hh]].
      destruct (Nat.eq_dec t u) as [->|Hne].
      * rewrite Hn in Hp. injection Hp as <-. discriminate.
      * exists p. rewrite nth_error_update_other; auto.
    + destruct Ha as [_ Ha]. rewrite Ha in Hu. injection Hu as <-.
      inversion Hm; subst. exists Workers.Holding.
      split; [exact (nth_error_update_same _ _ _ _ Hn)|reflexivity].
    + rewrite Ha in Hu. pose proof (Hlock t _ Hn eq_refl) as Hl.
      rewrite Hl in Hu. injection Hu as <-. inversion Hm; subst.
      exists Workers.InPipeline.
      split; [exact (nth_error_update_same _ _ _ _ Hn)|reflexivity].
    + rewrite Ha in Hu. pose proof (Hlock t _ Hn eq_refl) as Hl.
      rewrite Hl in Hu. injection Hu as <-. inversion Hm; subst.
      exists Workers.AfterCall.
      split; [exact (nth_error_update_same _ _ _ _ Hn)|reflexivity].
    + rewrite Ha in Hu. discriminate.
  - unfold Workers.busy in *. rewrite Ht.
    pose proof (count_update Workers.on_worker _ t old new Hn) as Hc.
    destruct a as [w|w|w|w|w]; destruct Ha as [_ [-> Ha]];
      inversion Hm; subst; simpl in Hc; lia.
  - rewrite Ht, update_length. exact Hlen.
Qed.

Lemma pool_invariant_init (n : nat) : pool_invariant n (Workers.init n).
Proof.
  split; [apply invariant_init|]. split; [|split].
  - simpl. discriminate.
  - unfold Workers.busy, Workers.max_workers. simpl.
    assert (H : filter Workers.on_worker (repeat Workers.Queued n) = []).
    { induction n as [|n IH]; simpl; auto. }
    rewrite H. simpl. lia.
  - simpl. apply repeat_length.
Qed.

Lemma run_pool_invariant (n : nat) (sched : list Workers.action)
  (st st' : Workers.state) :
  pool_invariant n st -> Workers.run sched st = Some st' ->
  pool_invariant n st' /\
  progress st' = (progress st + List.length sched)%nat.
Proof.
  revert st. induction sched as [|a sched IH]; intros st Hinv; simpl.
  - intros H. injection H as <-. split; [exact Hinv|lia].
  - destruct (Workers.step a st) as [st1|] eqn:Hstep; [|discriminate].
    intros H.
    destruct (IH st1 (step_pool_invariant n a st st1 Hinv Hstep) H)
      as [Hinv' Hp].
    split; [exact Hinv'|]. rewrite Hp, (step_progress a st st1 Hstep). lia.
Qed.

Lemma progress_init (n : nat) : progress (Workers.init n) = 0%nat.
Proof.
  unfold progress. simpl. induction n as [|n IH]; simpl; auto.
Qed.

Lemma progress_bound (l : list Workers.pc) :
  (list_sum (map rank l) <= 5 * List.length l)%nat /\
  (list_sum (map rank l) = 5 * List.length l <->
   forallb (pc_eqb Workers.Done) l = true)%nat.
Proof.
  induction l as [|p l [IH1 IH2]].
  - simpl. split; [lia|]. split; auto.
  - cbn [list_sum map forallb List.length fold_right].
    change (list_sum (map rank l)) with (fold_right Nat.add 0 (map rank l))%nat
      in *.
    destruct p; unfold pc_eqb at 1; cbn [rank Nat.eqb andb].
    all: split; [lia|].
    all: split; intros H; try discriminate; try lia.
    + apply IH2. lia.
    + apply IH2 in H. lia.
Qed.

Lemma pc_eqb_eq (p q : Workers.pc) : pc_eqb p q = true <-> p = q.
Proof.
  unfold pc_eqb. rewrite Nat.eqb_eq.
  split; [|intros ->; reflexivity].
  destruct p, q; simpl; intros H; try reflexivity; discriminate.
Qed.

Lemma first_index_some (f : Workers.pc -> bool) (l : list Workers.pc)
  (t : nat) :
  first_index f l = Some t ->
  exists p, nth_error l t = Some p /\ f p = true.
Proof.
  revert t. induction l as [|a l IH]; intros t; simpl; [discriminate|].
  destruct (f a) eqn:Ha.
  - intros H. injection H as <-. exists a. auto.
  - destruct (first_index f l) as [u|]; [|discriminate].
    intros H. injection H as <-. exact (IH u eq_refl).
Qed.

Lemma first_index_none (f : Workers.pc -> bool) (l : list Workers.pc) :
  first_index f l = None ->
  forall t p, nth_error l t = Some p -> f p = false.
Proof.
  induction l as [|a l IH]; simpl; intros H t p Hn.
  - destruct t; discriminate.
  - destruct (f a) eqn:Ha; [discriminate|].
    destruct (first_index f l) as [u|]; [discriminate|].
    destruct t as [|t]; simpl in Hn.
    + injection Hn as <-. exact Ha.
    + exact (IH eq_refl t p Hn).
Qed.

Lemma at_pc_intro (st : Workers.state) (t : nat) (p : Workers.pc) :
  nth_error (Workers.tasks st) t = Some p -> Workers.at_pc st t p = true.
Proof. unfold Workers.at_pc. intros ->. destruct p; reflexivity. Qed.

Lemma found_at (st : Workers.state) (q : Workers.pc) (t : nat) :
  first_index (pc_eqb q) (Workers.tasks st) = Some t ->
  Workers.at_pc st t q = true.
Proof.
  intros H. apply first_index_some in H as [p [Hn Hp]].
  apply pc_eqb_eq in Hp. subst p. apply at_pc_intro, Hn.
Qed.

Lemma none_at (st : Workers.state) (q : Workers.pc) :
  first_index (pc_eqb q) (Workers.tasks st) = None ->
  forall t p, nth_error (Workers.tasks st) t = Some p -> p <> q.
Proof.
  intros H t p Hn ->.
  pose proof (first_index_none _ _ H t q Hn) as Hf.
  rewrite (proj2 (pc_eqb_eq q q) eq_refl) in Hf. discriminate.
Qed.

Lemma filter_nil_of_nth {A} (f : A -> bool) (l : list A) :
  (forall t p, nth_error l t = Some p -> f p = false) -> filter f l = [].
Proof.
  induction l as [|a l IH]; intros H; simpl; [reflexivity|].
  rewrite (H 0%nat a eq_refl). apply IH.
  intros t p Hn. exact (H (S t) p Hn).
Qed.

Lemma forallb_of_nth {A} (f : A -> bool) (l : list A) :
  (forall t p, nth_error l t = Some p -> f p = true) -> forallb f l = true.
Proof.
  induction l as [|a l IH]; intros H; simpl; [reflexivity|].
  rewrite (H 0%nat a eq_refl). apply IH.
  intros t p Hn. exact (H (S t) p Hn).
Qed.

(** In a state that satisfies the invariants, [next_action] is enabled,
    and it is [None] only when every task is done. *)
Lemma next_action_enabled (n : nat) (st : Workers.state) :
  pool_invariant n st ->
  match next_action st with
  | Some a => exists st', Workers.step a st = Some st'
  | None => all_done st = true
  end.
Proof.
  intros [_ [Hholder _]]. unfold next_action.
  destruct (first_index (pc_eqb Workers.AfterCall) (Workers.tasks st))
    as [t|] eqn:E4.
  { apply found_at in E4. simpl. rewrite E4. eauto. }
  destruct (first_index (pc_eqb Workers.InPipeline) (Workers.tasks st))
    as [t|] eqn:E3.
  { apply found_at in E3. simpl. rewrite E3. eauto. }
  destruct (first_index (pc_eqb Workers.Holding) (Workers.tasks st))
    as [t|] eqn:E2.
  { apply found_at in E2. simpl. rewrite E2. eauto. }
  pose proof (none_at st _ E4) as N4. pose proof (none_at st _ E3) as N3.
  pose proof (none_at st _ E2) as N2.
  destruct (first_index (pc_eqb Workers.AtLock) (Workers.tasks st))
    as [t|] eqn:E1.
  { apply found_at in E1. simpl.
    destruct (Workers.lock st) as [u|] eqn:Hl.
    - destruct (Hholder u eq_refl) as [p [Hn Hh]].
      destruct p; try discriminate;
        [elim (N2 u _ Hn)|elim (N3 u _ Hn)|elim (N4 u _ Hn)]; reflexivity.
    - rewrite E1. eauto. }
  pose proof (none_at st _ E1) as N1.
  destruct (first_index (pc_eqb Workers.Queued) (Workers.tasks st))
    as [t|] eqn:E0.
  { apply found_at in E0. simpl. rewrite E0.
    assert (Hb : Workers.busy st = 0%nat).
    { unfold Workers.busy. rewrite filter_nil_of_nth; [reflexivity|].
      intros u p Hn. destruct p; try reflexivity;
        [elim (N1 u _ Hn)|elim (N2 u _ Hn)|elim (N3 u _ Hn)
        |elim (N4 u _ Hn)]; reflexivity. }
    rewrite Hb. simpl. eauto. }
  pose proof (none_at st _ E0) as N0.
  unfold all_done. apply forallb_of_nth. intros u p Hn. apply pc_eqb_eq.
  destruct p; try reflexivity;
    [elim (N0 u _ Hn)|elim (N1 u _ Hn)|elim (N2 u _ Hn)|elim (N3 u _ Hn)
    |elim (N4 u _ Hn)]; reflexivity.
Qed.

Lemma reachable_pool_invariant (n : nat) (sched : list Workers.action)
  (st : Workers.state) :
  Workers.run sched (Workers.init n) = Some st ->
  pool_invariant n st /\ progress st = List.length sched.
Proof.
  intros H.
  destruct (run_pool_invariant n sched _ st (pool_invariant_init n) H)
    as [Hinv Hp].
  rewrite progress_init in Hp. auto.
Qed.

(** X16: however the steps interleave, never more than two submitted
    calls are on workers at the same time, and no call is lost or added. *)
Theorem pool_never_exceeds_two_workers (n : nat)
  (sched : list Workers.action) (st : Workers.state) :
  Workers.run sched (Workers.init n) = Some st ->
  (Workers.busy st <= 2)%nat /\ List.length (Workers.tasks st) = n.
Proof.
  intros H. apply reachable_pool_invariant in H as [[_ [_ [Hb Hl]]] _].
  split; [exact Hb|exact Hl].
Qed.

(** X17: the lock is held exactly while its holder is inside the with
    block: in every reachable state it is held by task [t] if and only if
    task [t] has acquired it and not yet left the block, and it is free
    once every call is done, also after calls that raised. *)
Theorem lock_held_exactly_inside_with (n : nat)
  (sched : list Workers.action) (st : Workers.state) :
  Workers.run sched (Workers.init n) = Some st ->
  (forall t,
     Workers.lock st = Some t <->
     exists p, nth_error (Workers.tasks st) t = Some p /\
               Workers.holds p = true) /\
  (all_done st = true -> Workers.lock st = None).
Proof.
  intros H.
  apply reachable_pool_invariant in H as [[[Hlock _] [Hholder _]] _].
  split.
  - intros t. split; [apply Hholder|].
    intros [p [Hn Hh]]. exact (Hlock t p Hn Hh).
  - intros Hd. destruct (Workers.lock st) as [u|] eqn:Hl; [|reflexivity].
    destruct (Hholder u eq_refl) as [p [Hn Hh]].
    unfold all_done in Hd. rewrite forallb_forall in Hd.
    specialize (Hd p (nth_error_In _ _ Hn)). apply pc_eqb_eq in Hd.
    subst p. discriminate.
Qed.

(** X18: the pool never deadlocks: in every reachable state some step
    is enabled, the one that [next_action] names, unless every submitted
    call is done; so a reachable state in which no step is possible is one
    in which every call is done. *)
Theorem pool_never_deadlocks (n : nat) (sched : list Workers.action)
  (st : Workers.state) :
  Workers.run sched (Workers.init n) = Some st ->
  match next_action st with
  | Some a => exists st', Workers.step a st = Some st'
  | None => all_done st = true
  end /\
  ((forall a, Workers.step a st = None) -> all_done st = true).
Proof.
  intros H. apply reachable_pool_invariant in H as [Hinv _].
  pose proof (next_action_enabled n st Hinv) as Hn.
  split; [exact Hn|]. intros Hstuck.
  destruct (next_action st) as [a|]; [|exact Hn].
  destruct Hn as [st' Hs]. rewrite Hstuck in Hs. discriminate.
Qed.

(** X19: every call takes exactly five steps: a schedule that runs from
    the initial state of [n] calls has as many steps as the tasks have
    made progress, hence at most [5 * n], and exactly [5 * n] if and only
    if every call is done. *)
Theorem schedule_length (n : nat) (sched : list Workers.action)
  (st : Workers.state) :
  Workers.run sched (Workers.init n) = Some st ->
  List.length sched = progress st /\
  (List.length sched <= 5 * n)%nat /\
  (List.length sched = (5 * n)%nat <-> all_done st = true).
Proof.
  intros H. apply reachable_pool_invariant in H as [[_ [_ [_ Hl]]] Hp].
  destruct (progress_bound (Workers.tasks st)) as [Hb Hiff].
  rewrite Hl in Hb, Hiff. unfold progress in Hp. unfold all_done.
  rewrite <- Hp. unfold progress. split; [reflexivity|].
  split; [exact Hb|exact Hiff].
Qed.

Lemma pool_bound_witness :
  exists st,
    Workers.run sample_schedule (Workers.init 3) = Some st /\
    (Workers.busy st <= 2)%nat.
Proof.
  eexists. split; [reflexivity|].
  apply (pool_never_exceeds_two_workers 3 sample_schedule). reflexivity.
Defined.

Lemma lock_held_witness :
  exists st,
    Workers.run sample_schedule (Workers.init 3) = Some st /\
    Workers.lock st = Some 0%nat.
Proof.
  eexists. split; [reflexivity|].
  apply (proj1 (lock_held_exactly_inside_with 3 sample_schedule _ eq_refl)).
  exists Workers.InPipeline. split; reflexivity.
Defined.

Lemma pool_never_deadlocks_witness :
  exists st st',
    Workers.run sample_schedule (Workers.init 3) = Some st /\
    Workers.step (Workers.Finish 0) st = Some st'.
Proof.
  eexists.
  destruct (proj1 (pool_never_deadlocks 3 sample_schedule _ eq_refl))
    as [st' H].
  exists st'. split; [reflexivity|exact H].
Defined.

Lemma schedule_length_witness :
  (List.length sample_schedule <= 5 * 3)%nat.
Proof.
  exact (proj1 (proj2 (schedule_length 3 sample_schedule _ eq_refl))).
Defined.

Lemma step_appends (a : Workers.action) (st st' : Workers.state) :
  Workers.step a st = Some st' ->
  Workers.events st'
  = Workers.events st
    ++ match a with
       | Workers.Call t => [Workers.Enter t]
       | Workers.Finish t => [Workers.Leave t]
       | _ => []
       end.
Proof.
  destruct a as [t|t|t|t|t]; simpl.
  - destruct (Workers.at_pc st t Workers.Queued && _)%bool; [|discriminate].
    intros H. injection H as <-. simpl. symmetry. apply app_nil_r.
  - destruct (Workers.lock st); [discriminate|].
    destruct (Workers.at_pc st t Workers.AtLock); [|discriminate].
    intros H. injection H as <-. simpl. symmetry. apply app_nil_r.
  - destruct (Workers.at_pc st t Workers.Holding); [|discriminate].
    intros H. injection H as <-. reflexivity.
  - destruct (Workers.at_pc st t Workers.InPipeline); [|discriminate].
    intros H. injection H as <-. reflexivity.
  - destruct (Workers.at_pc st t Workers.AfterCall); [|discriminate].
    intros H. injection H as <-. simpl. symmetry. apply app_nil_r.
Qed.

Lemma step_events (a : Workers.action) (st st' : Workers.state) :
  Workers.step a st = Some st' ->
  (List.length (Workers.events st') + events_due (Workers.tasks st)
   = List.length (Workers.events st) + events_due (Workers.tasks st'))%nat.
Proof.
  intros H. rewrite (step_appends a st st' H), length_app.
  apply step_moves in H as [t [old [new [Hn [Ht [Hm Ha]]]]]].
  unfold events_due. rewrite Ht.
  pose proof (count_update has_entered _ t old new Hn) as H3.
  pose proof (count_update has_left _ t old new Hn) as H4.
  destruct a as [u|u|u|u|u]; destruct Ha as [_ [-> _]];
    inversion Hm; subst; simpl in H3, H4; simpl List.length; lia.
Qed.

Lemma events_due_all_done (l : list Workers.pc) :
  forallb (pc_eqb Workers.Done) l = true ->
  events_due l = (2 * List.length l)%nat.
Proof.
  unfold events_due. induction l as [|p l IH]; simpl; [reflexivity|].
  intros H. apply andb_true_iff in H as [Hp H]. apply pc_eqb_eq in Hp.
  subst p. simpl. specialize (IH H). lia.
Qed.

Lemma drain_runs (n fuel : nat) (st : Workers.state) :
  pool_invariant n st ->
  (progress st + fuel = 5 * n)%nat ->
  List.length (Workers.events st) = events_due (Workers.tasks st) ->
  let r := drain fuel st in
  Workers.run (fst r) st = Some (snd r) /\
  List.length (fst r) = fuel /\
  pool_invariant n (snd r) /\
  progress (snd r) = (5 * n)%nat /\
  List.length (Workers.events (snd r)) = events_due (Workers.tasks (snd r)).
Proof.
  revert st. induction fuel as [|k IH]; intros st Hinv Hp He; simpl.
  - repeat split; trivial; try apply Hinv. lia.
  - pose proof (next_action_enabled n st Hinv) as Hn.
    destruct (next_action st) as [a|].
    + destruct Hn as [st' Hstep]. rewrite Hstep. simpl. rewrite Hstep.
      pose proof (step_progress a st st' Hstep) as Hp'.
      pose proof (step_events a st st' Hstep) as He'.
      destruct (IH st' (step_pool_invariant n a st st' Hinv Hstep)
                  ltac:(lia) ltac:(lia)) as [H1 [H2 [H3 [H4 H5]]]].
      repeat split; trivial; try apply H3. lia.
    + exfalso. destruct Hinv as [_ [_ [_ Hl]]].
      destruct (progress_bound (Workers.tasks st)) as [_ Hiff].
      apply Hiff in Hn. unfold progress in Hp. rewrite Hl in Hn. lia.
Qed.

(** X20: every submitted call completes.  Taking an enabled step as
    long as there is one brings [n] submitted calls from the initial state
    to the state where all are done in exactly [5 * n] steps; the lock is
    then free, and the pipeline was entered and left [n] times in all,
    never by two calls at once. *)
Theorem every_call_completes (n : nat) :
  let r := drain (5 * n) (Workers.init n) in
  Workers.run (fst r) (Workers.init n) = Some (snd r) /\
  List.length (fst r) = (5 * n)%nat /\
  all_done (snd r) = true /\
  Workers.lock (snd r) = None /\
  Workers.serial (Workers.events (snd r)) = true /\
  List.length (Workers.events (snd r)) = (2 * n)%nat.
Proof.
  intros r.
  destruct (drain_runs n (5 * n) (Workers.init n) (pool_invariant_init n))
    as [H1 [H2 [H3 [H4 H5]]]].
  { rewrite progress_init. lia. }
  { unfold events_due. simpl.
    induction n as [|n IH]; simpl; auto. }
  fold r in H1, H2, H3, H4, H5.
  destruct H3 as [[Hlock [cur [Hscan _]]] [Hholder [_ Hl]]].
  assert (Hd : all_done (snd r) = true).
  { unfold all_done. apply (progress_bound (Workers.tasks (snd r))).
    unfold progress in H4. rewrite Hl. exact H4. }
  split; [exact H1|]. split; [exact H2|]. split; [exact Hd|].
  split; [|split].
  - destruct (Workers.lock (snd r)) as [u|] eqn:E; [|reflexivity].
    destruct (Hholder u eq_refl) as [p [Hn Hh]].
    unfold all_done in Hd. rewrite forallb_forall in Hd.
    specialize (Hd p (nth_error_In _ _ Hn)). apply pc_eqb_eq in Hd.
    subst p. discriminate.
  - unfold Workers.serial. rewrite Hscan. reflexivity.
  - rewrite H5, (events_due_all_done _ Hd), Hl. reflexivity.
Qed.

Example three_calls_complete :
  Workers.events (snd (drain 15 (Workers.init 3)))
  = [Workers.Enter 0; Workers.Leave 0; Workers.Enter 1; Workers.Leave 1;
     Workers.Enter 2; Workers.Leave 2].
Proof. reflexivity. Qed.

(** * Properties of the topic extraction *)

Lemma split_from_words (cur s : pystr) :
  forallb (fun c => negb (is_space c)) cur = true ->
  Forall (fun w => w <> [] /\ forallb (fun c => negb (is_space c)) w = true)
    (split_from cur s).
Proof.
  revert cur. induction s as [|c t IH]; intros cur Hcur; simpl.
  - destruct cur as [|a cur]; [constructor|].
    constructor; [|constructor]. split.
    + intros H. apply (f_equal (@List.length N)) in H.
      rewrite length_rev in H. discriminate.
    + rewrite forallb_rev. exact Hcur.
  - destruct (is_space c) eqn:Hc.
    + destruct cur as [|a cur]; [apply IH; reflexivity|].
      constructor; [|apply IH; reflexivity]. split.
      * intros H. apply (f_equal (@List.length N)) in H.
        rewrite length_rev in H. discriminate.
      * rewrite forallb_rev. exact Hcur.
    + apply IH. simpl. rewrite Hc. exact Hcur.
Qed.

Lemma join_nonempty (sep : pystr) (ws : list pystr) :
  ws <> [] -> Forall (fun w => w <> []) ws -> join sep ws <> [].
Proof.
  destruct ws as [|w [|w' r]]; intros Hne Hall; [congruence| |].
  - simpl. inversion Hall; assumption.
  - inversion Hall; subst. cbn [join].
    destruct w; [congruence|discriminate].
Qed.

Lemma in_firstn {A} (n : nat) (l : list A) (x : A) :
  In x (firstn n l) -> In x l.
Proof.
  intros H. rewrite <- (firstn_skipn n l). apply in_or_app. left. exact H.
Qed.

(** X21: the topic of a prompt is either one to three words of the
    lower-cased prompt joined by single spaces, each longer than two
    characters, none a stop word and none containing whitespace, taken in
    their order among the words that qualify; or, when no word qualifies,
    the first 50 characters of the prompt as typed.  A prompt that is not
    empty never gives an empty topic. *)
Theorem extract_topic_shape (lower : pystr -> pystr) (prompt : pystr) :
  let qualifying := filter meaningful (split (lower prompt)) in
  (qualifying = [] /\ extract_topic lower prompt = firstn 50 prompt \/
   qualifying <> [] /\
   extract_topic lower prompt = join (lit " ") (firstn 3 qualifying) /\
   (1 <= List.length (firstn 3 qualifying) <= 3)%nat /\
   Forall (fun w => (2 < len w)%Z /\ ~ In w stop_words /\
                    forallb (fun c => negb (is_space c)) w = true)
     (firstn 3 qualifying)) /\
  (prompt <> [] -> extract_topic lower prompt <> []).
Proof.
  intros qualifying.
  assert (Hq : Forall (fun w => (2 < len w)%Z /\ ~ In w stop_words /\
                         forallb (fun c => negb (is_space c)) w = true)
                 qualifying).
  { apply Forall_forall. intros w Hin. unfold qualifying in Hin.
    apply filter_In in Hin as [Hin Hm]. unfold meaningful in Hm.
    apply andb_true_iff in Hm as [Hs Hl]. apply Z.ltb_lt in Hl.
    split; [exact Hl|]. split.
    - intros Hst. apply negb_true_iff in Hs.
      assert (Ht : existsb (pystr_eqb w) stop_words = true).
      { apply existsb_exists. exists w. split; [exact Hst|].
        apply pystr_eqb_eq. reflexivity. }
      congruence.
    - pose proof (split_from_words [] (lower prompt) eq_refl) as Hall.
      rewrite Forall_forall in Hall. exact (proj2 (Hall w Hin)). }
  unfold extract_topic. fold qualifying.
  destruct qualifying as [|w r] eqn:E.
  - split; [left; split; reflexivity|].
    intros Hne. destruct prompt; [congruence|discriminate].
  - assert (Hf : Forall (fun w0 => (2 < len w0)%Z /\ ~ In w0 stop_words /\
                           forallb (fun c => negb (is_space c)) w0 = true)
                   (firstn 3 (w :: r))).
    { apply Forall_forall. intros x Hx. rewrite Forall_forall in Hq.
      apply Hq. exact (in_firstn _ _ _ Hx). }
    split.
    + right. split; [discriminate|]. split; [reflexivity|].
      split; [|exact Hf].
      pose proof (firstn_le_length 2 r) as H1.
      change (firstn 3 (w :: r)) with (w :: firstn 2 r).
      cbn [List.length]. lia.
    + intros _. apply join_nonempty; [discriminate|].
      eapply Forall_impl; [|exact Hf]. intros x [Hl _] ->. unfold len in Hl. simpl in Hl. lia.
Qed.

Example topic_of_question :
  extract_topic (fun s => s) (lit "what is the water cycle in nature")
  = lit "water cycle nature".
Proof. reflexivity. Qed.

Example topic_falls_back :
  extract_topic (fun s => s) (lit "why is it so") = lit "why is it so".
Proof. reflexivity. Qed.
